(** * Outdoor weather risk dashboard: classification, aggregation, summary

    A shallow embedding of [app.py].  The script is a straight-line
    pipeline: select the forecast records of one date, stop with a warning
    when there are none, build the data frame, classify every row with
    [weather_risk], count the conditions, print one probability per
    condition and assemble a summary sentence.

    Numbers.  The provider's JSON carries Python [int]s and finite
    [float]s; Python compares them by their mathematical value, so a
    reading is modelled by the rational it denotes ([Q]).  A record
    follows the provider's schema: a field that is present holds a value
    of its documented type (a finite number, a string, an object, an
    array); a present [null], a NaN or a value of another type is outside
    the model.

    Probabilities.  [(count / total_slots) * 100] is computed on binary64
    doubles and [.1f] prints the double rounded to the nearest tenth.  The
    lines of a report carry the exact share ([percent], a rational); the
    double the script computes is [computed], its printed form [printed].
    The two differ near ties: 23 slots of 80 are 28.75 exactly, but
    28.749999999999996 on doubles, printed 28.7.  Statements about the
    printed values are made on the doubles.

    Category labels are the string constants of the source.  Exceptions
    are values of an error monad. *)

From Stdlib Require Import List String Ascii Bool Arith ZArith QArith Qround Qabs.
From Stdlib Require Import Permutation Sorted Lia Lqa.
From Stdlib Require PrimFloat FloatOps SpecFloat Uint63.
Import ListNotations.

Local Close Scope Q_scope.
Local Open Scope string_scope.

(** ** Exceptions *)

Inductive exn : Type :=
| KeyError (key : string)
| IndexError
| ZeroDivisionError.

Inductive result (A : Type) : Type :=
| Ok (a : A)
| Raise (e : exn).

Arguments Ok {A} a.
Arguments Raise {A} e.

Definition bind {A B : Type} (m : result A) (k : A -> result B) : result B :=
  match m with
  | Ok a => k a
  | Raise e => Raise e
  end.

Notation "x <- m ;; k" := (bind m (fun x => k))
  (at level 61, m at next level, right associativity).

(** [d[key]] on a JSON object whose entry may be absent. *)
Definition getitem {A : Type} (key : string) (entry : option A) : result A :=
  match entry with
  | Some v => Ok v
  | None => Raise (KeyError key)
  end.

(** [d.get(key, default)]. *)
Definition get {A : Type} (entry : option A) (default : A) : A :=
  match entry with
  | Some v => v
  | None => default
  end.

(** [xs[0]]. *)
Definition first_item {A : Type} (xs : list A) : result A :=
  match xs with
  | x :: _ => Ok x
  | [] => Raise IndexError
  end.

(** ** Raw provider records (the elements of [forecast_json["list"]])

    A key may be absent ([None]); a key that is present holds a value of
    the type the provider documents for it. *)

Module Raw.

Record main : Type := { temp : option Q; humidity : option Q }.
Record wind : Type := { speed : option Q }.
Record weather : Type := { description : option string }.
Record rain : Type := { three_hours : option Q }.

Record forecast : Type := {
  dt_txt : option string;
  main_ : option main;
  wind_ : option wind;
  weather_ : option (list weather);
  rain_ : option rain
}.

(** The [{}] of [f.get("rain", {})]. *)
Definition empty_rain : rain := {| three_hours := None |}.

End Raw.

(** ** The selected date and [str(date_selected)] *)

(** A [datetime.date]: 1 <= year <= 9999, 1 <= month <= 12, 1 <= day <= 31,
    printed by [str] as YYYY-MM-DD with leading zeros. *)
Record date : Type := { year : nat; month : nat; day : nat }.

Definition digit (n : nat) : ascii := ascii_of_nat (48 + n mod 10).

Definition str (d : date) : string :=
  String (digit (year d / 1000)) (String (digit (year d / 100))
  (String (digit (year d / 10)) (String (digit (year d))
  (String "-" (String (digit (month d / 10)) (String (digit (month d))
  (String "-" (String (digit (day d / 10)) (String (digit (day d))
  EmptyString))))))))).

(** [s.startswith(p)]. *)
Definition startswith (s p : string) : bool := prefix p s.

(** ** Selection of the date's records (app.py, line 53) *)

Fixpoint selected_forecast (date_selected : date)
    (forecast_list : list Raw.forecast) : result (list Raw.forecast) :=
  match forecast_list with
  | [] => Ok []
  | f :: rest =>
      t <- getitem "dt_txt" (Raw.dt_txt f) ;;
      sel <- selected_forecast date_selected rest ;;
      Ok (if startswith t (str date_selected) then f :: sel else sel)
  end.

(** ** The data frame (app.py, lines 59-66) *)

Record Row : Type := {
  time : string;
  temperature : Q;
  humidity : Q;
  wind_speed : Q;
  weather : string;
  rain : Q
}.

(** One dictionary of the list comprehension; the entries are evaluated in
    the order they are written. *)
Definition df_row (f : Raw.forecast) : result Row :=
  t <- getitem "dt_txt" (Raw.dt_txt f) ;;
  m <- getitem "main" (Raw.main_ f) ;;
  tp <- getitem "temp" (Raw.temp m) ;;
  m' <- getitem "main" (Raw.main_ f) ;;
  hm <- getitem "humidity" (Raw.humidity m') ;;
  w <- getitem "wind" (Raw.wind_ f) ;;
  sp <- getitem "speed" (Raw.speed w) ;;
  ws <- getitem "weather" (Raw.weather_ f) ;;
  w0 <- first_item ws ;;
  ds <- getitem "description" (Raw.description w0) ;;
  Ok {| time := t;
        temperature := tp;
        humidity := hm;
        wind_speed := sp;
        weather := ds;
        rain := get (Raw.three_hours (get (Raw.rain_ f) Raw.empty_rain)) 0%Q |}.

Fixpoint df (selected : list Raw.forecast) : result (list Row) :=
  match selected with
  | [] => Ok []
  | f :: rest =>
      row <- df_row f ;;
      rows <- df rest ;;
      Ok (row :: rows)
  end.

(** ** Risk categories (the six labels [weather_risk] returns) *)

Definition VeryHot : string := "Very Hot".
Definition VeryCold : string := "Very Cold".
Definition VeryWindy : string := "Very Windy".
Definition VeryWet : string := "Very Wet".
Definition VeryUncomfortable : string := "Very Uncomfortable".
Definition Comfortable : string := "Comfortable".

Definition RiskCategory : list string :=
  [VeryHot; VeryCold; VeryWindy; VeryWet; VeryUncomfortable; Comfortable].

(** ** Python comparisons on numbers *)

Definition num_ge (a b : Q) : bool := Qle_bool b a.
Definition num_le (a b : Q) : bool := Qle_bool a b.
Definition num_gt (a b : Q) : bool := negb (Qle_bool a b).

(** ** [weather_risk] (app.py, lines 69-81) *)

Definition weather_risk (temp wind rain humidity : Q) : string :=
  if num_ge temp 35 then VeryHot
  else if num_le temp 10 then VeryCold
  else if num_ge wind 10 then VeryWindy
  else if num_gt rain 2 then VeryWet
  else if num_ge humidity 80 && (num_le 20 temp && num_le temp 32)
       then VeryUncomfortable
  else Comfortable.

(** [df["Condition"] = df.apply(lambda row: weather_risk(...), axis=1)]
    (line 83): the lambda applied to one row, and the new column with one
    label per row. *)
Definition classify (row : Row) : string :=
  weather_risk (temperature row) (wind_speed row) (rain row) (humidity row).

Definition Condition (rows : list Row) : list string := map classify rows.

(** ** The two pandas operations on the label column

    pandas is an external library; both operations are modelled from their
    documented behaviour.  [Series.unique] returns the distinct values in
    order of appearance.  [Series.value_counts] counts each distinct value
    and returns the counts in descending order, the most frequent value
    first.  The order among equal counts is not fixed by the documentation;
    the model sorts stably, which keeps equal counts in order of
    appearance. *)

Definition contains (c : string) (values : list string) : bool :=
  existsb (String.eqb c) values.

Definition see (seen : list string) (c : string) : list string :=
  if contains c seen then seen else seen ++ [c].

Definition unique (values : list string) : list string :=
  fold_left see values [].

Fixpoint tally (counts : list (string * nat)) (c : string) : list (string * nat) :=
  match counts with
  | [] => [(c, 1)]
  | (k, n) :: rest =>
      if String.eqb k c then (k, S n) :: rest else (k, n) :: tally rest c
  end.

Definition counts_by_appearance (values : list string) : list (string * nat) :=
  fold_left tally values [].

Fixpoint insert_descending (x : string * nat) (sorted : list (string * nat))
    : list (string * nat) :=
  match sorted with
  | [] => [x]
  | y :: rest =>
      if (snd y <=? snd x)%nat then x :: y :: rest
      else y :: insert_descending x rest
  end.

Definition sort_descending (counts : list (string * nat)) : list (string * nat) :=
  fold_right insert_descending [] counts.

Definition value_counts (values : list string) : list (string * nat) :=
  sort_descending (counts_by_appearance values).

(** ** Risk assessment (app.py, lines 104-110)

    [risk_counts] is an insertion-ordered [dict]: an association list in
    iteration order. *)

Definition risk_counts (conditions : list string) : list (string * nat) :=
  value_counts conditions.

Definition truediv (a b : Q) : result Q :=
  if Qeq_bool b 0 then Raise ZeroDivisionError else Ok (a / b)%Q.

Definition of_count (n : nat) : Q := inject_Z (Z.of_nat n).

(** [(count / total_slots) * 100], as the exact share; the double the
    script computes for it is [computed], further down. *)
Definition probability (count total_slots : nat) : result Q :=
  q <- truediv (of_count count) (of_count total_slots) ;;
  Ok (q * 100)%Q.

(** Nearest integer, ties to even. *)
Definition round_half_even (x : Q) : Z :=
  let f := Qfloor x in
  match (x - inject_Z f ?= 1 # 2)%Q with
  | Lt => f
  | Gt => (f + 1)%Z
  | Eq => if Z.even f then f else (f + 1)%Z
  end.

(** A number rounded to one decimal, as the [.1f] format rounds the
    double it is given. *)
Definition one_decimal (x : Q) : Q :=
  (inject_Z (round_half_even (x * 10)) / 10)%Q.

(** One written line: condition, count, exact share. *)
Record Line : Type := {
  condition : string;
  slots : nat;
  percent : Q
}.

(** The [for] loop over [risk_counts.items()]. *)
Fixpoint probabilities (items : list (string * nat)) (total_slots : nat)
    : result (list Line) :=
  match items with
  | [] => Ok []
  | (c, count) :: rest =>
      p <- probability count total_slots ;;
      lines <- probabilities rest total_slots ;;
      Ok ({| condition := c; slots := count; percent := p |} :: lines)
  end.

Definition slots_total (lines : list Line) : nat :=
  fold_right (fun l acc => slots l + acc) 0 lines.

(** ** Summary insight (app.py, lines 122-136) *)

Definition hot_advice : string :=
  " 🥵 Stay hydrated and avoid peak afternoon heat.".
Definition cold_advice : string :=
  " 🥶 Wear layers and protect against the cold.".
Definition windy_advice : string :=
  " 💨 Be cautious with outdoor activities.".
Definition wet_advice : string :=
  " 🌧️ Carry rain gear or reconsider outdoor plans.".
Definition uncomfortable_advice : string :=
  " 😓 High humidity may cause discomfort.".
Definition comfortable_advice : string :=
  " ✅ Great conditions for outdoor activities!".

Definition base_sentence (selected_place : string) (date_selected : date)
    (unique_conditions : list string) : string :=
  "For " ++ selected_place ++ " on " ++ str date_selected
  ++ ", conditions are mostly: " ++ concat ", " unique_conditions ++ ".".

Definition summary (selected_place : string) (date_selected : date)
    (unique_conditions : list string) : string :=
  let summary := base_sentence selected_place date_selected unique_conditions in
  let summary :=
    if contains VeryHot unique_conditions then summary ++ hot_advice else summary in
  let summary :=
    if contains VeryCold unique_conditions then summary ++ cold_advice else summary in
  let summary :=
    if contains VeryWindy unique_conditions then summary ++ windy_advice else summary in
  let summary :=
    if contains VeryWet unique_conditions then summary ++ wet_advice else summary in
  let summary :=
    if contains VeryUncomfortable unique_conditions
    then summary ++ uncomfortable_advice else summary in
  let summary :=
    if contains Comfortable unique_conditions
    then summary ++ comfortable_advice else summary in
  summary.

(** ** One run of the script, from the fetched list on *)

Definition no_data_warning : string :=
  "⚠️ No forecast data available for this date. Try another date.".

Record Report : Type := {
  frame : list Row;
  conditions : list string;
  total_slots : nat;
  assessment : list Line;
  insight : string
}.

(** How a run ends: [st.warning] followed by [st.stop], or the rendered
    page. *)
Inductive outcome : Type :=
| Stopped (warning : string)
| Rendered (report : Report).

Definition run (selected_place : string) (date_selected : date)
    (forecast_list : list Raw.forecast) : result outcome :=
  selected <- selected_forecast date_selected forecast_list ;;
  match selected with
  | [] => Ok (Stopped no_data_warning)
  | _ :: _ =>
      rows <- df selected ;;
      let labels := Condition rows in
      lines <- probabilities (risk_counts labels) (List.length rows) ;;
      Ok (Rendered {| frame := rows;
                      conditions := labels;
                      total_slots := List.length rows;
                      assessment := lines;
                      insight := summary selected_place date_selected
                                   (unique labels) |})
  end.

(** The normalizer: selection followed by the construction of the frame. *)
Definition normalize (date_selected : date) (forecast_list : list Raw.forecast)
    : result (list Row) :=
  selected <- selected_forecast date_selected forecast_list ;;
  df selected.

(** ** The probability chart (app.py, line 115)

    [ax2.bar(risk_counts.keys(), [(c/total_slots)*100 for c in
    risk_counts.values()])]: the labels and the heights of the bars. *)

Fixpoint chart_heights (values : list nat) (total_slots : nat) : result (list Q) :=
  match values with
  | [] => Ok []
  | c :: rest =>
      h <- probability c total_slots ;;
      hs <- chart_heights rest total_slots ;;
      Ok (h :: hs)
  end.

Definition probability_chart (risk_counts : list (string * nat))
    (total_slots : nat) : result (list string * list Q) :=
  heights <- chart_heights (map snd risk_counts) total_slots ;;
  Ok (map fst risk_counts, heights).

(** ** The script around the run (app.py, lines 14-50) *)

Definition popular_places : list (string * (Q * Q)) :=
  [("Mumbai", (19.0760, 72.8777)%Q);
   ("Delhi", (28.6139, 77.2090)%Q);
   ("Bangalore", (12.9716, 77.5946)%Q);
   ("Chennai", (13.0827, 80.2707)%Q);
   ("Kolkata", (22.5726, 88.3639)%Q)].

(** [d[key]] on a dictionary literal. *)
Fixpoint lookup {A : Type} (key : string) (d : list (string * A)) : result A :=
  match d with
  | [] => Raise (KeyError key)
  | (k, v) :: rest => if String.eqb k key then Ok v else lookup key rest
  end.

(** [list(popular_places.keys())], the options of the select box. *)
Definition place_options : list string := map fst popular_places.

(** Truth value of [os.getenv(...)]: [None] and the empty string are
    false. *)
Definition truthy (value : option string) : bool :=
  match value with
  | Some (String _ _) => true
  | _ => false
  end.

(** The decoded body of the response. *)
Record forecast_json : Type := { list_ : option (list Raw.forecast) }.

(** What the [try] block of lines 41-47 yields: the decoded body, or the
    text of the exception it caught. *)
Inductive response : Type :=
| Received (body : forecast_json)
| Failed (e : string).

Definition api_key_error : string :=
  "⚠️ OPENWEATHER_API_KEY not found. Add it to your .env file.".

Definition fetch_error (e : string) : string :=
  "❌ Error fetching weather data: " ++ e.

(** How the script ends: [st.error] followed by [st.stop], or the outcome
    of the run. *)
Inductive page : Type :=
| ErrorBox (message : string)
| Ran (o : outcome).

(** The script; [requests_get] answers the request for a latitude, a
    longitude and a key. *)
Definition script (OPENWEATHER_API_KEY : option string)
    (selected_place : string) (date_selected : date)
    (requests_get : Q -> Q -> option string -> response) : result page :=
  if negb (truthy OPENWEATHER_API_KEY) then Ok (ErrorBox api_key_error)
  else
    coordinates <- lookup selected_place popular_places ;;
    let (LAT, LON) := coordinates in
    match requests_get LAT LON OPENWEATHER_API_KEY with
    | Failed e => Ok (ErrorBox (fetch_error e))
    | Received body =>
        forecast_list <- getitem "list" (list_ body) ;;
        o <- run selected_place date_selected forecast_list ;;
        Ok (Ran o)
    end.

(** ** The probability in binary64

    [(count / total_slots) * 100] as Python computes it, on doubles, and
    the rational a finite double denotes. *)

Definition probability_double (count total_slots : Z) : PrimFloat.float :=
  PrimFloat.mul
    (PrimFloat.div (PrimFloat.of_uint63 (Uint63.of_Z count))
                   (PrimFloat.of_uint63 (Uint63.of_Z total_slots)))
    (PrimFloat.of_uint63 (Uint63.of_Z 100)).

Definition double_value (x : PrimFloat.float) : option Q :=
  match FloatOps.Prim2SF x with
  | SpecFloat.S754_zero _ => Some 0%Q
  | SpecFloat.S754_finite negative m e =>
      let magnitude :=
        if (0 <=? e)%Z then (inject_Z (Z.pos m) * inject_Z (2 ^ e))%Q
        else (inject_Z (Z.pos m) / inject_Z (2 ^ (- e)))%Q in
      Some (if negative then (- magnitude)%Q else magnitude)
  | _ => None
  end.

(** The double computed for a line with [count] slots out of
    [total_slots] (both positive). *)
Definition computed (count total_slots : nat) : PrimFloat.float :=
  probability_double (Z.of_nat count) (Z.of_nat total_slots).

(** The number the [.1f] format prints for a finite double. *)
Definition printed (x : PrimFloat.float) : option Q :=
  option_map one_decimal (double_value x).


(** The largest run on which every double has been evaluated. *)
Definition checked_slots : nat := 200.

(** The margin within which a computed double meets the exact share. *)
Definition margin : Q := (1 # 1000000000000)%Q.

(** The double for [count] of [total_slots] is finite, within the margin
    of the exact share, above 0 and at most 100. *)
Definition near (count total_slots : nat) : bool :=
  match double_value (computed count total_slots) with
  | Some q =>
      Qle_bool (Qabs (q - 100 * of_count count / of_count total_slots)) margin
      && negb (Qle_bool q 0) && Qle_bool q 100
  | None => false
  end.

Definition all_near (slots : nat) : bool :=
  forallb (fun total => forallb (fun count => near count total) (seq 1 total))
          (seq 1 slots).

(** ** Vocabulary of the statements *)

(** The date component of a timestamp "YYYY-MM-DD HH:MM:SS". *)
Definition date_component (timestamp : string) : string :=
  substring 0 10 timestamp.

(** The record's timestamp is on the target date. *)
Definition on_target_date (target : date) (f : Raw.forecast) : bool :=
  match Raw.dt_txt f with
  | Some t => String.eqb (date_component t) (str target)
  | None => false
  end.

(** The record carries a timestamp. *)
Definition has_timestamp (f : Raw.forecast) : bool :=
  match Raw.dt_txt f with
  | Some _ => true
  | None => false
  end.

(** The record carries the four required fields: temperature, humidity,
    wind speed and the description of its first weather entry. *)
Definition has_required (f : Raw.forecast) : bool :=
  match Raw.main_ f, Raw.wind_ f, Raw.weather_ f with
  | Some m, Some w, Some (w0 :: _) =>
      match Raw.temp m, Raw.humidity m, Raw.speed w, Raw.description w0 with
      | Some _, Some _, Some _, Some _ => true
      | _, _, _, _ => false
      end
  | _, _, _ => false
  end.

(** The exception that reading the required fields of a record raises:
    KeyError for the first key not found, in the order the fields are
    read, IndexError for an empty weather array; none when the record
    carries them all. *)
Definition missing_field (f : Raw.forecast) : option exn :=
  match Raw.main_ f with
  | None => Some (KeyError "main")
  | Some m =>
      match Raw.temp m, Raw.humidity m with
      | None, _ => Some (KeyError "temp")
      | Some _, None => Some (KeyError "humidity")
      | Some _, Some _ =>
          match Raw.wind_ f with
          | None => Some (KeyError "wind")
          | Some w =>
              match Raw.speed w with
              | None => Some (KeyError "speed")
              | Some _ =>
                  match Raw.weather_ f with
                  | None => Some (KeyError "weather")
                  | Some [] => Some IndexError
                  | Some (w0 :: _) =>
                      match Raw.description w0 with
                      | None => Some (KeyError "description")
                      | Some _ => None
                      end
                  end
              end
          end
      end
  end.

(** The precipitation of a record, 0 when the optional field is absent. *)
Definition precipitation (f : Raw.forecast) : Q :=
  match Raw.rain_ f with
  | Some r =>
      match Raw.three_hours r with
      | Some mm => mm
      | None => 0%Q
      end
  | None => 0%Q
  end.

(** [slot] is the forecast slot of the raw record [f]. *)
Definition slot_of (f : Raw.forecast) (slot : Row) : Prop :=
  Raw.dt_txt f = Some (time slot) /\
  (exists m, Raw.main_ f = Some m /\
             Raw.temp m = Some (temperature slot) /\
             Raw.humidity m = Some (humidity slot)) /\
  (exists w, Raw.wind_ f = Some w /\ Raw.speed w = Some (wind_speed slot)) /\
  (exists w0 ws, Raw.weather_ f = Some (w0 :: ws) /\
                 Raw.description w0 = Some (weather slot)) /\
  rain slot = precipitation f.

(** The doubles nearest to 10.1 and 9.9. *)
Definition double_10_1 : Q := (5685794529555251 # 562949953421312)%Q.
Definition double_9_9 : Q := (5573204538870989 # 562949953421312)%Q.

(** Position of the first occurrence of a label in the column (the length
    of the column when it does not occur). *)
Fixpoint first_position (c : string) (values : list string) : nat :=
  match values with
  | [] => 0
  | v :: rest => if String.eqb v c then 0 else S (first_position c rest)
  end.

(** [a] is met before [b] in the column. *)
Definition met_before (values : list string) (a b : string) : Prop :=
  first_position a values < first_position b values.

(** Number of slots carrying a label. *)
Definition occurrences (c : string) (values : list string) : nat :=
  count_occ string_dec values c.

(** The count recorded for a label (0 when the label has no entry). *)
Fixpoint count_of (c : string) (counts : list (string * nat)) : nat :=
  match counts with
  | [] => 0
  | (k, n) :: rest => if String.eqb k c then n else count_of c rest
  end.

(** Sum of the recorded counts. *)
Definition counted (counts : list (string * nat)) : nat :=
  fold_right (fun entry acc => snd entry + acc) 0 counts.

(** The order of [value_counts]: the larger count first. *)
Definition more_frequent (a b : string * nat) : Prop := snd b <= snd a.

(** The entry of [risk_counts] a written line comes from. *)
Definition item_of (l : Line) : string * nat := (condition l, slots l).


(** The advisory clauses in the order the summary checks them. *)
Definition advice_in_order : list (string * string) :=
  [(VeryHot, hot_advice); (VeryCold, cold_advice); (VeryWindy, windy_advice);
   (VeryWet, wet_advice); (VeryUncomfortable, uncomfortable_advice);
   (Comfortable, comfortable_advice)].

(** One clause for each category present, none for an absent one, in the
    fixed order. *)
Definition advisory_clauses (present : list string) : string :=
  fold_right (fun clause rest => clause ++ rest) ""
    (map snd (filter (fun entry => contains (fst entry) present) advice_in_order)).

(** ** Sample data *)

Definition reading (timestamp : string) (temp humidity speed : Q)
    (description : string) (rain : option Raw.rain) : Raw.forecast :=
  {| Raw.dt_txt := Some timestamp;
     Raw.main_ := Some {| Raw.temp := Some temp; Raw.humidity := Some humidity |};
     Raw.wind_ := Some {| Raw.speed := Some speed |};
     Raw.weather_ := Some [{| Raw.description := Some description |}];
     Raw.rain_ := rain |}.

Definition third_of_november : date := {| year := 2026; month := 11; day := 3 |}.

Definition morning : Raw.forecast :=
  reading "2026-11-03 09:00:00" 36 40 3 "clear sky" None.

Definition noon : Raw.forecast :=
  reading "2026-11-03 12:00:00" 25 85 3 "light rain"
          (Some {| Raw.three_hours := Some (5 # 10)%Q |}).

Definition next_day : Raw.forecast :=
  reading "2026-11-04 09:00:00" 25 50 3 "few clouds" None.

(** A record of the third of November without [main.temp]. *)
Definition no_temperature : Raw.forecast :=
  {| Raw.dt_txt := Some "2026-11-03 15:00:00";
     Raw.main_ := Some {| Raw.temp := None; Raw.humidity := Some 50%Q |};
     Raw.wind_ := Some {| Raw.speed := Some 3%Q |};
     Raw.weather_ := Some [{| Raw.description := Some "haze" |}];
     Raw.rain_ := None |}.

Definition dawn : Raw.forecast :=
  reading "2026-11-03 06:00:00" 25 50 3 "few clouds" None.

Definition afternoon : Raw.forecast :=
  reading "2026-11-03 15:00:00" 37 30 3 "clear sky" None.

(** Six slots of one date, one of each category. *)
Definition six_conditions : list Raw.forecast :=
  [reading "2026-11-03 03:00:00" 5 50 3 "clear sky" None;
   dawn;
   morning;
   noon;
   reading "2026-11-03 15:00:00" 25 50 12 "windy" None;
   reading "2026-11-03 18:00:00" 25 50 3 "heavy rain"
           (Some {| Raw.three_hours := Some 5%Q |})].

(** ** Further vocabulary *)

(** The ranges of the fields of a [datetime.date]. *)
Definition in_range (d : date) : Prop :=
  (1 <= Z.of_nat (year d) <= 9999)%Z /\
  1 <= month d <= 12 /\ 1 <= day d <= 31.

(** The record can be read in full: timestamp and required fields. *)
Definition complete (f : Raw.forecast) : bool :=
  has_timestamp f && has_required f.

(** The keys [run] reads from a record. *)
Definition record_keys : list string :=
  ["dt_txt"; "main"; "temp"; "humidity"; "wind"; "speed"; "weather";
   "description"].

(** The exceptions a malformed record can cause. *)
Definition record_error (e : exn) : Prop :=
  e = IndexError \/ exists key, e = KeyError key /\ In key record_keys.

(** A record of the fourth of November without any field but its
    timestamp. *)
Definition bare_next_day : Raw.forecast :=
  {| Raw.dt_txt := Some "2026-11-04 12:00:00";
     Raw.main_ := None;
     Raw.wind_ := None;
     Raw.weather_ := None;
     Raw.rain_ := None |}.

(** A record without timestamp. *)
Definition no_timestamp : Raw.forecast :=
  {| Raw.dt_txt := None;
     Raw.main_ := Some {| Raw.temp := Some 25%Q; Raw.humidity := Some 50%Q |};
     Raw.wind_ := Some {| Raw.speed := Some 3%Q |};
     Raw.weather_ := Some [{| Raw.description := Some "haze" |}];
     Raw.rain_ := None |}.

(** A provider that answers every request with the same records. *)
Definition always (records : list Raw.forecast) (lat lon : Q)
    (key : option string) : response :=
  Received {| list_ := Some records |}.

(** * Properties *)

(** ** The classifier *)

Section Classifier.

Local Open Scope Q_scope.

Lemma num_ge_cases (a b : Q) :
  (num_ge a b = true /\ b <= a) \/ (num_ge a b = false /\ a < b).
Proof.
  unfold num_ge. destruct (Qle_bool b a) eqn:E.
  - left. split; [reflexivity | now apply Qle_bool_iff].
  - right. split; [reflexivity |]. apply Qnot_le_lt. intro H.
    apply Qle_bool_iff in H. congruence.
Qed.

Lemma num_le_cases (a b : Q) :
  (num_le a b = true /\ a <= b) \/ (num_le a b = false /\ b < a).
Proof. exact (num_ge_cases b a). Qed.

Lemma num_gt_cases (a b : Q) :
  (num_gt a b = true /\ b < a) \/ (num_gt a b = false /\ a <= b).
Proof.
  unfold num_gt. destruct (num_le_cases a b) as [[E H] | [E H]];
    unfold num_le in E; rewrite E; simpl; [right | left]; split; auto.
Qed.

(** Decide every test of [weather_risk] and close each branch by linear
    arithmetic. *)
Ltac decide_rules :=
  unfold classify, weather_risk;
  repeat match goal with
    | H : _ /\ _ |- _ => destruct H
    | |- context [num_ge ?a ?b] =>
        destruct (num_ge_cases a b) as [[-> ?] | [-> ?]]
    | |- context [num_le ?a ?b] =>
        destruct (num_le_cases a b) as [[-> ?] | [-> ?]]
    | |- context [num_gt ?a ?b] =>
        destruct (num_gt_cases a b) as [[-> ?] | [-> ?]]
    end;
  simpl; try reflexivity; try (exfalso; lra).

Lemma RiskCategory_NoDup : NoDup RiskCategory.
Proof.
  unfold RiskCategory.
  repeat (constructor; [simpl; intuition discriminate |]).
  constructor.
Qed.

Lemma weather_risk_in_RiskCategory (temp wind rain humidity : Q) :
  In (weather_risk temp wind rain humidity) RiskCategory.
Proof.
  unfold weather_risk, RiskCategory.
  destruct (num_ge temp 35); [simpl; tauto |].
  destruct (num_le temp 10); [simpl; tauto |].
  destruct (num_ge wind 10); [simpl; tauto |].
  destruct (num_gt rain 2); [simpl; tauto |].
  destruct (num_ge humidity 80 && (num_le 20 temp && num_le temp 32));
    simpl; tauto.
Qed.

(** C1 (as amended): the rules of [weather_risk] are tried in the order
    hot, cold, windy, wet, uncomfortable, and the first one that matches
    decides; no match gives Comfortable.  The slot 36 / 15 / 5 / 90 is
    Very Hot.  A slot that is both wet and uncomfortable is Very Wet when
    its wind speed is below 10. *)
Theorem weather_risk_first_match (temp wind rain humidity : Q) :
  (35 <= temp -> weather_risk temp wind rain humidity = VeryHot) /\
  (temp < 35 -> temp <= 10 ->
     weather_risk temp wind rain humidity = VeryCold) /\
  (temp < 35 -> 10 < temp -> 10 <= wind ->
     weather_risk temp wind rain humidity = VeryWindy) /\
  (temp < 35 -> 10 < temp -> wind < 10 -> 2 < rain ->
     weather_risk temp wind rain humidity = VeryWet) /\
  (temp < 35 -> 10 < temp -> wind < 10 -> rain <= 2 ->
     80 <= humidity /\ 20 <= temp <= 32 ->
     weather_risk temp wind rain humidity = VeryUncomfortable) /\
  (temp < 35 -> 10 < temp -> wind < 10 -> rain <= 2 ->
     ~ (80 <= humidity /\ 20 <= temp <= 32) ->
     weather_risk temp wind rain humidity = Comfortable) /\
  weather_risk 36 15 5 90 = VeryHot /\
  (2 < rain -> 80 <= humidity /\ 20 <= temp <= 32 -> wind < 10 ->
     weather_risk temp wind rain humidity = VeryWet).
Proof.
  repeat split; try reflexivity; intros; decide_rules.
Qed.

Lemma weather_risk_first_match_witness :
  weather_risk 40 0 0 0 = VeryHot /\
  weather_risk 5 0 0 0 = VeryCold /\
  weather_risk 25 12 0 0 = VeryWindy /\
  weather_risk 15 3 4 0 = VeryWet /\
  weather_risk 25 3 1 85 = VeryUncomfortable /\
  weather_risk 15 3 1 85 = Comfortable /\
  weather_risk 25 3 5 90 = VeryWet.
Proof.
  destruct (weather_risk_first_match 40 0 0 0) as (hot & _).
  destruct (weather_risk_first_match 5 0 0 0) as (_ & cold & _).
  destruct (weather_risk_first_match 25 12 0 0) as (_ & _ & windy & _).
  destruct (weather_risk_first_match 15 3 4 0) as (_ & _ & _ & wet & _).
  destruct (weather_risk_first_match 25 3 1 85)
    as (_ & _ & _ & _ & uncomfortable & _).
  destruct (weather_risk_first_match 15 3 1 85)
    as (_ & _ & _ & _ & _ & comfortable & _).
  destruct (weather_risk_first_match 25 3 5 90)
    as (_ & _ & _ & _ & _ & _ & _ & both).
  split; [apply hot; lra |].
  split; [apply cold; lra |].
  split; [apply windy; lra |].
  split; [apply wet; lra |].
  split; [apply uncomfortable; lra |].
  split; [apply comfortable; lra |].
  apply both; lra.
Defined.

(** C1, as stated, fails: the slot 25 / 12 / 5 / 90 satisfies the wet
    and the uncomfortable conditions and is Very Windy. *)
Lemma wet_and_uncomfortable_but_windy :
  2 < 5 /\ (80 <= 90 /\ 20 <= 25 <= 32) /\
  weather_risk 25 12 5 90 = VeryWindy /\
  weather_risk 25 12 5 90 <> VeryWet.
Proof.
  repeat split; try lra; try reflexivity.
  discriminate.
Qed.

(** The two constants are the doubles nearest to 101/10 and 99/10: the
    correctly rounded quotients. *)
Example nearest_doubles :
  double_value (PrimFloat.div (PrimFloat.of_uint63 (Uint63.of_Z 101))
                              (PrimFloat.of_uint63 (Uint63.of_Z 10)))
    = Some double_10_1 /\
  double_value (PrimFloat.div (PrimFloat.of_uint63 (Uint63.of_Z 99))
                              (PrimFloat.of_uint63 (Uint63.of_Z 10)))
    = Some double_9_9.
Proof. split; vm_compute; reflexivity. Qed.

(** C5: the thresholds are inclusive or exclusive as written.  A
    temperature of exactly 35 is Very Hot and one of exactly 10 is Very
    Cold, whatever the other readings; 10.1 / 9.9 / 0 / 50 is
    Comfortable (for the decimal values and for the doubles nearest to
    them); at temperature 25, with no wind or rain rule firing,
    humidity 79 is Comfortable and humidity 80 is Very Uncomfortable. *)
Theorem weather_risk_boundaries :
  (forall temp wind rain humidity, temp == 35 ->
     weather_risk temp wind rain humidity = VeryHot) /\
  (forall temp wind rain humidity, temp == 10 ->
     weather_risk temp wind rain humidity = VeryCold) /\
  weather_risk (101 # 10) (99 # 10) 0 50 = Comfortable /\
  weather_risk double_10_1 double_9_9 0 50 = Comfortable /\
  (forall wind rain, wind < 10 -> rain <= 2 ->
     weather_risk 25 wind rain 79 = Comfortable) /\
  (forall wind rain, wind < 10 -> rain <= 2 ->
     weather_risk 25 wind rain 80 = VeryUncomfortable).
Proof.
  split; [intros; decide_rules |].
  split; [intros; decide_rules |].
  split; [reflexivity |].
  split; [reflexivity |].
  split; intros; decide_rules.
Qed.

Lemma weather_risk_boundaries_witness :
  (350 # 10 == 35 /\ weather_risk (350 # 10) 3 0 40 = VeryHot) /\
  (100 # 10 == 10 /\ weather_risk (100 # 10) 3 0 40 = VeryCold) /\
  (3 < 10 /\ 1 <= 2 /\ weather_risk 25 3 1 79 = Comfortable) /\
  (3 < 10 /\ 1 <= 2 /\ weather_risk 25 3 1 80 = VeryUncomfortable).
Proof.
  destruct weather_risk_boundaries as (hot & cold & _ & _ & h79 & h80).
  split; [split; [reflexivity | apply hot; reflexivity] |].
  split; [split; [reflexivity | apply cold; reflexivity] |].
  split; (split; [lra | split; [lra |]]).
  - apply h79; lra.
  - apply h80; lra.
Defined.

(** C6: the classifier is total and has no error path: for every slot
    it returns one label, and that label is one of the six categories,
    which are pairwise distinct. *)
Theorem classify_total :
  NoDup RiskCategory /\ List.length RiskCategory = 6%nat /\
  forall slot : Row,
    exists! category : string,
      In category RiskCategory /\ classify slot = category.
Proof.
  split; [exact RiskCategory_NoDup |].
  split; [reflexivity |].
  intro slot. exists (classify slot). split.
  - split; [apply weather_risk_in_RiskCategory | reflexivity].
  - intros c [_ H]. exact H.
Qed.

(** C10: a slot between 10 and 20 degrees, with wind below 10 and rain
    at most 2, is Comfortable at every humidity: the uncomfortable rule
    needs at least 20 degrees. *)
Theorem cool_slot_comfortable (temp wind rain humidity : Q) :
  10 < temp -> temp < 20 -> wind < 10 -> rain <= 2 ->
  weather_risk temp wind rain humidity = Comfortable.
Proof.
  intros. decide_rules.
Qed.

Lemma cool_slot_comfortable_witness :
  (10 < 15 /\ 15 < 20 /\ 3 < 10 /\ 0 <= 2) /\
  weather_risk 15 3 0 100 = Comfortable.
Proof.
  split.
  - repeat split; lra.
  - apply (cool_slot_comfortable 15 3 0 100); lra.
Defined.

End Classifier.

(** ** The normalizer *)

Section Normalizer.

Lemma str_length (d : date) : String.length (str d) = 10%nat.
Proof. reflexivity. Qed.

(** With a ten-character date, [startswith] compares the date
    component. *)
Lemma startswith_date (t : string) (d : date) :
  startswith t (str d) = String.eqb (date_component t) (str d).
Proof.
  unfold startswith, date_component.
  pose proof (prefix_correct (str d) t) as P.
  rewrite str_length in P.
  destruct (prefix (str d) t).
  - symmetry. apply String.eqb_eq. now apply P.
  - symmetry. apply String.eqb_neq. intro E.
    apply P in E. discriminate.
Qed.

Lemma selected_forecast_filter (d : date) (fl : list Raw.forecast) :
  Forall (fun f => has_timestamp f = true) fl ->
  selected_forecast d fl = Ok (filter (on_target_date d) fl).
Proof.
  induction 1 as [| f fl Hf _ IH]; simpl; [reflexivity |].
  unfold has_timestamp in Hf. unfold on_target_date.
  destruct (Raw.dt_txt f) as [t |]; [| discriminate].
  simpl. rewrite IH. simpl. rewrite startswith_date. reflexivity.
Qed.

(** A record without timestamp makes the selection raise. *)
Lemma selected_forecast_no_timestamp (d : date) (fl : list Raw.forecast) :
  Exists (fun f => has_timestamp f = false) fl ->
  selected_forecast d fl = Raise (KeyError "dt_txt").
Proof.
  induction 1 as [f fl Hf | f fl _ IH]; simpl.
  - unfold has_timestamp in Hf.
    destruct (Raw.dt_txt f); [discriminate | reflexivity].
  - destruct (Raw.dt_txt f); simpl; [| reflexivity].
    rewrite IH. reflexivity.
Qed.

Lemma selected_forecast_timestamps (d : date) (fl sel : list Raw.forecast) :
  selected_forecast d fl = Ok sel ->
  Forall (fun f => has_timestamp f = true) fl.
Proof.
  revert sel. induction fl as [| f fl IH]; intros sel H; [constructor |].
  simpl in H. unfold has_timestamp.
  destruct (Raw.dt_txt f) eqn:E; [| discriminate]. simpl in H.
  destruct (selected_forecast d fl) as [sel' |] eqn:E'; [| discriminate].
  constructor; [rewrite E; reflexivity | now apply (IH sel')].
Qed.

Lemma df_row_complete (f : Raw.forecast) :
  has_timestamp f = true -> has_required f = true ->
  exists slot, df_row f = Ok slot /\ slot_of f slot.
Proof.
  unfold has_timestamp, has_required, df_row, slot_of, precipitation.
  intros Ht Hr.
  destruct (Raw.dt_txt f) as [t |]; [| discriminate].
  destruct (Raw.main_ f) as [m |]; [| discriminate].
  destruct (Raw.wind_ f) as [w |]; [| discriminate].
  destruct (Raw.weather_ f) as [[| w0 ws] |]; try discriminate.
  destruct (Raw.temp m) as [tp |] eqn:Etp; [| discriminate].
  destruct (Raw.humidity m) as [hm |] eqn:Ehm; [| discriminate].
  destruct (Raw.speed w) as [sp |] eqn:Esp; [| discriminate].
  destruct (Raw.description w0) as [ds |] eqn:Eds; [| discriminate].
  simpl. rewrite Etp. simpl. rewrite Ehm. simpl. rewrite Esp. simpl.
  rewrite Eds. simpl. eexists. split; [reflexivity |]. simpl.
  split; [reflexivity |].
  split; [exists m; auto |].
  split; [exists w; auto |].
  split; [exists w0, ws; auto |].
  destruct (Raw.rain_ f) as [r |]; simpl; [| reflexivity].
  destruct (Raw.three_hours r); reflexivity.
Qed.

Lemma df_row_malformed (f : Raw.forecast) :
  has_required f = false -> exists e, df_row f = Raise e.
Proof.
  unfold has_required, df_row. intro Hr.
  destruct (Raw.dt_txt f) as [t |]; simpl; [| eauto].
  destruct (Raw.main_ f) as [m |]; simpl; [| eauto].
  destruct (Raw.temp m) as [tp |]; simpl; [| eauto].
  destruct (Raw.humidity m) as [hm |]; simpl; [| eauto].
  destruct (Raw.wind_ f) as [w |]; simpl; [| eauto].
  destruct (Raw.speed w) as [sp |]; simpl; [| eauto].
  destruct (Raw.weather_ f) as [[| w0 ws] |]; simpl; eauto.
  destruct (Raw.description w0) as [ds |]; simpl; [discriminate | eauto].
Qed.

Lemma df_complete (sel : list Raw.forecast) :
  Forall (fun f => has_timestamp f = true) sel ->
  Forall (fun f => has_required f = true) sel ->
  exists slots, df sel = Ok slots /\ Forall2 slot_of sel slots.
Proof.
  induction sel as [| f sel IH]; intros Ht Hr.
  - exists []. split; [reflexivity | constructor].
  - inversion Ht as [| ? ? Htf Ht']; subst.
    inversion Hr as [| ? ? Hrf Hr']; subst.
    destruct (df_row_complete f Htf Hrf) as (slot & E & S).
    destruct (IH Ht' Hr') as (slots & E' & S').
    exists (slot :: slots). simpl. rewrite E, E'. simpl.
    split; [reflexivity | now constructor].
Qed.

Lemma df_malformed (sel : list Raw.forecast) :
  Exists (fun f => has_required f = false) sel ->
  exists e, df sel = Raise e.
Proof.
  induction 1 as [f sel Hf | f sel _ (e & IH)]; simpl.
  - destruct (df_row_malformed f Hf) as (e & E). rewrite E. simpl. eauto.
  - destruct (df_row f); simpl; [| eauto]. rewrite IH. simpl. eauto.
Qed.

Lemma df_length (sel : list Raw.forecast) (rows : list Row) :
  df sel = Ok rows -> List.length rows = List.length sel.
Proof.
  revert rows. induction sel as [| f sel IH]; simpl; intros rows H.
  - injection H as <-. reflexivity.
  - destruct (df_row f); simpl in H; [| discriminate].
    destruct (df sel) as [rows' |]; simpl in H; [| discriminate].
    injection H as <-. simpl. f_equal. now apply IH.
Qed.

(** C8 (as amended): for every list in which each record has a timestamp
    and each record of the target date has the required fields, the
    normalizer returns the slots of exactly the records whose date
    component is the target date, in input order; an absent
    precipitation becomes 0; no record of that date gives the empty
    sequence and no error. *)
Theorem normalize_selects_target_date (target : date)
    (forecast_list : list Raw.forecast) :
  Forall (fun f => has_timestamp f = true) forecast_list ->
  Forall (fun f => has_required f = true)
         (filter (on_target_date target) forecast_list) ->
  exists slots,
    normalize target forecast_list = Ok slots /\
    Forall2 slot_of (filter (on_target_date target) forecast_list) slots /\
    (filter (on_target_date target) forecast_list = [] -> slots = []).
Proof.
  intros Ht Hr. unfold normalize.
  rewrite (selected_forecast_filter target forecast_list Ht). simpl.
  assert (Ht' : Forall (fun f => has_timestamp f = true)
                       (filter (on_target_date target) forecast_list)).
  { apply Forall_forall. intros f Hf. apply filter_In in Hf.
    rewrite Forall_forall in Ht. apply Ht. tauto. }
  destruct (df_complete _ Ht' Hr) as (slots & E & S).
  exists slots. split; [exact E |]. split; [exact S |].
  intro Hnil. rewrite Hnil in S. now inversion S.
Qed.

Lemma normalize_selects_target_date_witness :
  exists slots,
    normalize third_of_november [morning; next_day; noon] = Ok slots /\
    Forall2 slot_of [morning; noon] slots /\
    map rain slots = [0%Q; (5 # 10)%Q].
Proof.
  destruct (normalize_selects_target_date third_of_november
              [morning; next_day; noon]) as (slots & E & S & _).
  - repeat constructor.
  - repeat constructor.
  - exists slots. split; [exact E |]. split; [exact S |].
    vm_compute in E. injection E as <-. reflexivity.
Defined.

Lemma missing_field_required (f : Raw.forecast) :
  missing_field f = None <-> has_required f = true.
Proof.
  unfold missing_field, has_required.
  destruct (Raw.main_ f) as [m |]; [| split; discriminate].
  destruct (Raw.wind_ f) as [w |];
    destruct (Raw.weather_ f) as [[| w0 ws] |];
    destruct (Raw.temp m); destruct (Raw.humidity m);
    try destruct (Raw.speed w); try destruct (Raw.description w0);
    split; intro H; try reflexivity; discriminate H.
Qed.

Lemma missing_field_kind (f : Raw.forecast) (e : exn) :
  missing_field f = Some e ->
  e = IndexError \/
  exists key, e = KeyError key /\
    In key ["main"; "temp"; "humidity"; "wind"; "speed"; "weather";
            "description"]%list.
Proof.
  unfold missing_field. intro H.
  destruct (Raw.main_ f) as [m |];
    [| injection H as <-; right; eexists; split; [reflexivity | simpl; tauto]].
  destruct (Raw.temp m);
    [| injection H as <-; right; eexists; split; [reflexivity | simpl; tauto]].
  destruct (Raw.humidity m);
    [| injection H as <-; right; eexists; split; [reflexivity | simpl; tauto]].
  destruct (Raw.wind_ f) as [w |];
    [| injection H as <-; right; eexists; split; [reflexivity | simpl; tauto]].
  destruct (Raw.speed w);
    [| injection H as <-; right; eexists; split; [reflexivity | simpl; tauto]].
  destruct (Raw.weather_ f) as [[| w0 ws] |];
    [injection H as <-; now left | |
     injection H as <-; right; eexists; split; [reflexivity | simpl; tauto]].
  destruct (Raw.description w0); [discriminate |].
  injection H as <-. right. eexists. split; [reflexivity | simpl; tauto].
Qed.

(** Reading a record that has its timestamp raises the exception of its
    first missing field. *)
Lemma df_row_missing (f : Raw.forecast) (e : exn) :
  has_timestamp f = true -> missing_field f = Some e -> df_row f = Raise e.
Proof.
  unfold has_timestamp, missing_field, df_row. intros Ht H.
  destruct (Raw.dt_txt f); [| discriminate]. cbn [getitem bind].
  destruct (Raw.main_ f) as [m |]; cbn [getitem bind]; [| now injection H as <-].
  destruct (Raw.temp m); cbn [getitem bind]; [| now injection H as <-].
  destruct (Raw.humidity m); cbn [getitem bind]; [| now injection H as <-].
  destruct (Raw.wind_ f) as [w |]; cbn [getitem bind]; [| now injection H as <-].
  destruct (Raw.speed w); cbn [getitem bind]; [| now injection H as <-].
  destruct (Raw.weather_ f) as [[| w0 ws] |]; cbn [getitem bind first_item];
    [now injection H as <- | | now injection H as <-].
  destruct (Raw.description w0); cbn [getitem bind]; [discriminate |].
  now injection H as <-.
Qed.

(** The first record that lacks a required field. *)
Lemma first_incomplete (sel : list Raw.forecast) :
  Exists (fun f => has_required f = false) sel ->
  exists good bad rest,
    sel = (good ++ bad :: rest)%list /\
    Forall (fun f => has_required f = true) good /\
    has_required bad = false.
Proof.
  induction sel as [| f sel IH]; intro H; [inversion H |].
  destruct (has_required f) eqn:E.
  - inversion H as [? ? Hf | ? ? Hs]; subst; [congruence |].
    destruct (IH Hs) as (good & bad & rest & -> & Hg & Hb).
    exists (f :: good), bad, rest. split; [reflexivity |].
    split; [now constructor | exact Hb].
  - exists [], f, sel. split; [reflexivity |]. split; [constructor | exact E].
Qed.

(** The frame stops at the first record it cannot read. *)
Lemma df_stops_at (good rest : list Raw.forecast) (bad : Raw.forecast)
    (e : exn) :
  Forall (fun f => has_timestamp f = true) good ->
  Forall (fun f => has_required f = true) good ->
  df_row bad = Raise e ->
  df (good ++ bad :: rest) = Raise e.
Proof.
  intros Ht Hr Hb. induction good as [| f good IH]; simpl.
  - now rewrite Hb.
  - inversion Ht as [| ? ? Htf Ht']; subst.
    inversion Hr as [| ? ? Hrf Hr']; subst.
    destruct (df_row_complete f Htf Hrf) as (row & E & _).
    rewrite E. simpl. now rewrite (IH Ht' Hr').
Qed.

(** C2 (as amended): a record of the target date that misses a required
    field makes the construction of the frame raise, for the first such
    record in list order, the exception of its first missing field:
    KeyError for the key not found, IndexError for an empty weather
    array.  The whole batch is aborted: the run produces no slots, no
    counts and no count of excluded records. *)
Theorem malformed_record_aborts_batch (target : date)
    (forecast_list selected : list Raw.forecast) :
  selected_forecast target forecast_list = Ok selected ->
  Exists (fun f => has_required f = false) selected ->
  exists good bad rest e,
    selected = (good ++ bad :: rest)%list /\
    Forall (fun f => has_required f = true) good /\
    missing_field bad = Some e /\
    (e = IndexError \/ exists key, e = KeyError key) /\
    normalize target forecast_list = Raise e /\
    forall place, run place target forecast_list = Raise e.
Proof.
  intros Hs Hx.
  destruct (first_incomplete selected Hx) as (good & bad & rest & E & Hg & Hb).
  assert (Ht : Forall (fun f => has_timestamp f = true) selected).
  { pose proof (selected_forecast_timestamps _ _ _ Hs) as Hts.
    rewrite (selected_forecast_filter target forecast_list Hts) in Hs.
    injection Hs as <-. rewrite Forall_forall in *. intros f Hf.
    apply filter_In in Hf. apply Hts. tauto. }
  destruct (missing_field bad) as [e |] eqn:Em.
  - exists good, bad, rest, e. split; [exact E |]. split; [exact Hg |].
    split; [exact Em |].
    assert (Hk : e = IndexError \/ exists key, e = KeyError key).
    { destruct (missing_field_kind bad e Em) as [-> | (key & -> & _)];
        [now left | right; now exists key]. }
    split; [exact Hk |].
    assert (Hd : df selected = Raise e).
    { rewrite E in Ht |- *. apply Forall_app in Ht. destruct Ht as [Htg Htb].
      inversion Htb as [| ? ? Hbt _]; subst.
      apply df_stops_at; [exact Htg | exact Hg |].
      now apply df_row_missing. }
    unfold normalize, run. rewrite Hs. cbn [bind].
    split; [exact Hd |]. intro place.
    destruct selected as [| f sel]; [destruct good; discriminate |].
    rewrite Hd. reflexivity.
  - apply missing_field_required in Em. congruence.
Qed.

Lemma malformed_record_aborts_batch_witness :
  exists good bad rest,
    [morning; no_temperature; noon] = (good ++ bad :: rest)%list /\
    missing_field bad = Some (KeyError "temp") /\
    normalize third_of_november [morning; no_temperature; noon]
      = Raise (KeyError "temp") /\
    forall place,
      run place third_of_november [morning; no_temperature; noon]
        = Raise (KeyError "temp").
Proof.
  destruct (malformed_record_aborts_batch third_of_november
              [morning; no_temperature; noon] [morning; no_temperature; noon])
    as (good & bad & rest & e & E & _ & M & _ & N & R).
  - reflexivity.
  - right. left. reflexivity.
  - exists good, bad, rest.
    assert (Ee : e = KeyError "temp").
    { vm_compute in N. now injection N as <-. }
    subst e. split; [exact E |]. split; [exact M |]. split; assumption.
Defined.

(** C8, as stated, fails: it does not hold for every list.  A list with
    no record of the target date, one of whose records lacks [dt_txt],
    does not give the empty sequence but raises; so does a list whose
    record of the target date lacks [main.temp]. *)
Lemma normalize_raises_on_unreadable_list :
  filter (on_target_date third_of_november) [next_day; no_timestamp] = [] /\
  normalize third_of_november [next_day; no_timestamp]
    = Raise (KeyError "dt_txt") /\
  normalize third_of_november [next_day; no_timestamp] <> Ok [] /\
  normalize third_of_november [morning; no_temperature]
    = Raise (KeyError "temp").
Proof.
  split; [reflexivity |]. split; [reflexivity |].
  split; [discriminate | reflexivity].
Qed.

(** C2, as stated, fails: with a record lacking [main.temp] between two
    complete records of the same date, no normalized sequence is
    returned; the remaining records are not kept. *)
Lemma missing_temperature_is_not_skipped :
  has_required no_temperature = false /\
  normalize third_of_november [morning; no_temperature; noon]
    = Raise (KeyError "temp") /\
  run "Mumbai" third_of_november [morning; no_temperature; noon]
    = Raise (KeyError "temp") /\
  (exists kept, normalize third_of_november [morning; noon] = Ok kept /\
                normalize third_of_november [morning; no_temperature; noon]
                  <> Ok kept).
Proof.
  split; [reflexivity |].
  split; [reflexivity |].
  split; [reflexivity |].
  eexists. split; [reflexivity | discriminate].
Qed.

End Normalizer.

(** ** The label column: [unique] and [value_counts] *)

Section Labels.

Local Open Scope list_scope.

Lemma contains_In (c : string) (values : list string) :
  contains c values = true <-> In c values.
Proof.
  unfold contains. rewrite existsb_exists. split.
  - intros (x & Hx & E). apply String.eqb_eq in E. now subst.
  - intro H. exists c. split; [exact H | apply String.eqb_refl].
Qed.

Lemma contains_app (c : string) (l1 l2 : list string) :
  contains c (l1 ++ l2) = contains c l1 || contains c l2.
Proof. unfold contains. apply existsb_app. Qed.

Lemma filter_twice {A : Type} (f g : A -> bool) (l : list A) :
  filter f (filter g l) = filter (fun x => g x && f x) l.
Proof.
  induction l as [| a l IH]; simpl; [reflexivity |].
  destruct (g a); simpl; [| exact IH].
  destruct (f a); now rewrite IH.
Qed.

(** The scan with a non-empty set of seen labels, in terms of the scan
    from scratch. *)
Lemma fold_see (values seen : list string) :
  fold_left see values seen
  = seen ++ filter (fun y => negb (contains y seen)) (unique values).
Proof.
  unfold unique. revert seen.
  induction values as [| x values IH]; intro seen; simpl.
  - now rewrite app_nil_r.
  - rewrite (IH (see [] x)), (IH (see seen x)).
    change (see [] x) with [x]. unfold see.
    destruct (contains x seen) eqn:Ex.
    + f_equal. simpl. rewrite Ex. simpl. rewrite filter_twice.
      apply filter_ext. intro y.
      change (contains y [x]) with (String.eqb y x || false).
      rewrite orb_false_r.
      destruct (String.eqb y x) eqn:Eyx; simpl; [| reflexivity].
      apply String.eqb_eq in Eyx. subst y. now rewrite Ex.
    + rewrite <- app_assoc. f_equal. simpl. rewrite Ex. simpl. f_equal.
      rewrite filter_twice. apply filter_ext. intro y.
      rewrite contains_app, negb_orb. apply andb_comm.
Qed.

(** [unique] keeps the head and drops its later occurrences. *)
Lemma unique_cons (x : string) (values : list string) :
  unique (x :: values)
  = x :: filter (fun y => negb (String.eqb y x)) (unique values).
Proof.
  unfold unique at 1. simpl. unfold see at 1. simpl.
  rewrite fold_see. simpl. f_equal.
  apply filter_ext. intro y. unfold contains. simpl.
  now rewrite orb_false_r.
Qed.

Lemma unique_In (values : list string) (c : string) :
  In c (unique values) <-> In c values.
Proof.
  induction values as [| x values IH]; [simpl; tauto |].
  rewrite unique_cons. simpl. rewrite filter_In, IH, negb_true_iff.
  destruct (String.eqb_spec c x) as [-> | N].
  - intuition auto.
  - split; [tauto |]. intros [H | H]; [now subst | right; now split].
Qed.

Lemma unique_NoDup (values : list string) : NoDup (unique values).
Proof.
  induction values as [| x values IH]; [constructor |].
  rewrite unique_cons. constructor.
  - rewrite filter_In, String.eqb_refl. simpl. intros [_ H]. discriminate.
  - now apply NoDup_filter.
Qed.

Lemma first_position_head (x : string) (values : list string) :
  first_position x (x :: values) = 0.
Proof. simpl. now rewrite String.eqb_refl. Qed.

Lemma first_position_tail (x y : string) (values : list string) :
  String.eqb y x = false ->
  first_position y (x :: values) = S (first_position y values).
Proof. intro N. simpl. now rewrite String.eqb_sym, N. Qed.

Lemma met_before_skip (x : string) (values kept : list string) :
  StronglySorted (met_before values) kept ->
  StronglySorted (met_before (x :: values))
                 (filter (fun y => negb (String.eqb y x)) kept).
Proof.
  induction 1 as [| a kept _ IH Ha]; simpl; [constructor |].
  destruct (String.eqb a x) eqn:Ea; simpl; [exact IH |].
  constructor; [exact IH |].
  rewrite Forall_forall in *. intros b Hb.
  apply filter_In in Hb. destruct Hb as [Hb Nb].
  apply negb_true_iff in Nb. unfold met_before in *.
  rewrite (first_position_tail x a values Ea).
  rewrite (first_position_tail x b values Nb).
  apply -> Nat.succ_lt_mono. now apply Ha.
Qed.

(** [unique] lists the labels in the order in which they are first
    met. *)
Lemma unique_first_occurrence_order (values : list string) :
  StronglySorted (met_before values) (unique values).
Proof.
  induction values as [| x values IH]; [constructor |].
  rewrite unique_cons. constructor; [now apply met_before_skip |].
  rewrite Forall_forall. intros b Hb.
  apply filter_In in Hb. destruct Hb as [_ Nb].
  apply negb_true_iff in Nb. unfold met_before.
  rewrite first_position_head, (first_position_tail x b values Nb). lia.
Qed.

(** *** Counting *)

Lemma tally_keys (counts : list (string * nat)) (c : string) :
  map fst (tally counts c) = see (map fst counts) c.
Proof.
  induction counts as [| [k n] counts IH]; [reflexivity |].
  simpl. unfold see in *. unfold contains in *. simpl.
  rewrite (String.eqb_sym c k).
  destruct (String.eqb k c); simpl; [reflexivity |].
  rewrite IH. now destruct (existsb (String.eqb c) (map fst counts)).
Qed.

Lemma fold_tally_keys (values : list string) (counts : list (string * nat)) :
  map fst (fold_left tally values counts)
  = fold_left see values (map fst counts).
Proof.
  revert counts. induction values as [| x values IH]; intro counts; simpl.
  - reflexivity.
  - now rewrite IH, tally_keys.
Qed.

Lemma counts_by_appearance_keys (values : list string) :
  map fst (counts_by_appearance values) = unique values.
Proof. apply fold_tally_keys. Qed.

Lemma count_of_tally (counts : list (string * nat)) (x c : string) :
  count_of c (tally counts x)
  = count_of c counts + (if String.eqb x c then 1 else 0).
Proof.
  induction counts as [| [k n] counts IH]; simpl.
  - now destruct (String.eqb x c).
  - destruct (String.eqb_spec k x) as [-> | N]; simpl.
    + destruct (String.eqb x c); lia.
    + destruct (String.eqb_spec k c) as [-> | N']; [| exact IH].
      destruct (String.eqb_spec x c) as [-> | _]; [congruence | lia].
Qed.

Lemma count_of_fold (values : list string) (counts : list (string * nat))
    (c : string) :
  count_of c (fold_left tally values counts)
  = count_of c counts + occurrences c values.
Proof.
  unfold occurrences. revert counts.
  induction values as [| x values IH]; intro counts; simpl; [lia |].
  rewrite IH, count_of_tally.
  destruct (string_dec x c) as [-> | N].
  - rewrite String.eqb_refl. lia.
  - apply String.eqb_neq in N. rewrite N. lia.
Qed.

Lemma count_of_In (counts : list (string * nat)) (c : string) (n : nat) :
  NoDup (map fst counts) -> In (c, n) counts -> count_of c counts = n.
Proof.
  induction counts as [| [k m] counts IH]; simpl; [tauto |].
  intros ND [E | H].
  - injection E as -> ->. now rewrite String.eqb_refl.
  - inversion ND as [| ? ? Hk ND']; subst.
    destruct (String.eqb_spec k c) as [-> | _]; [| now apply IH].
    exfalso. apply Hk. apply in_map_iff. now exists (c, n).
Qed.

Lemma counted_tally (counts : list (string * nat)) (x : string) :
  counted (tally counts x) = S (counted counts).
Proof.
  induction counts as [| [k n] counts IH]; [reflexivity |].
  simpl tally. destruct (String.eqb k x).
  - change (S n + counted counts = S (n + counted counts)). lia.
  - change (n + counted (tally counts x) = S (n + counted counts)).
    rewrite IH. lia.
Qed.

Lemma counted_fold (values : list string) (counts : list (string * nat)) :
  counted (fold_left tally values counts)
  = counted counts + List.length values.
Proof.
  revert counts. induction values as [| x values IH]; intro counts; simpl.
  - lia.
  - rewrite IH, counted_tally. lia.
Qed.

Lemma counted_Permutation (l l' : list (string * nat)) :
  Permutation l l' -> counted l = counted l'.
Proof.
  induction 1; simpl; lia.
Qed.

(** *** Sorting by descending count *)

Lemma insert_descending_Permutation (x : string * nat)
    (l : list (string * nat)) :
  Permutation (insert_descending x l) (x :: l).
Proof.
  induction l as [| y l IH]; simpl; [reflexivity |].
  destruct (Nat.leb (snd y) (snd x)); [reflexivity |].
  rewrite IH. apply perm_swap.
Qed.

Lemma sort_descending_Permutation (l : list (string * nat)) :
  Permutation (sort_descending l) l.
Proof.
  induction l as [| x l IH]; simpl; [reflexivity |].
  now rewrite insert_descending_Permutation, IH.
Qed.

Lemma insert_descending_sorted (x : string * nat) (l : list (string * nat)) :
  StronglySorted more_frequent l ->
  StronglySorted more_frequent (insert_descending x l).
Proof.
  induction 1 as [| y l Hl IH Hy]; simpl.
  - repeat constructor.
  - destruct (Nat.leb (snd y) (snd x)) eqn:E.
    + apply Nat.leb_le in E. constructor; [now constructor |].
      constructor; [exact E |].
      rewrite Forall_forall in *. intros z Hz.
      unfold more_frequent in *. specialize (Hy z Hz). lia.
    + apply Nat.leb_gt in E. constructor; [exact IH |].
      rewrite Forall_forall in *. intros z Hz.
      apply (Permutation_in _ (insert_descending_Permutation x l)) in Hz.
      destruct Hz as [<- | Hz]; [unfold more_frequent; lia | now apply Hy].
Qed.

Lemma sort_descending_sorted (l : list (string * nat)) :
  StronglySorted more_frequent (sort_descending l).
Proof.
  induction l as [| x l IH]; simpl; [constructor |].
  now apply insert_descending_sorted.
Qed.

(** *** [value_counts] *)

Lemma value_counts_keys (values : list string) :
  Permutation (map fst (value_counts values)) (unique values).
Proof.
  unfold value_counts. rewrite <- counts_by_appearance_keys.
  apply Permutation_map, sort_descending_Permutation.
Qed.

Lemma value_counts_NoDup (values : list string) :
  NoDup (map fst (value_counts values)).
Proof.
  apply (Permutation_NoDup (Permutation_sym (value_counts_keys values))).
  apply unique_NoDup.
Qed.

Lemma value_counts_In (values : list string) (c : string) :
  In c (map fst (value_counts values)) <-> In c values.
Proof.
  rewrite <- (unique_In values c). split; apply Permutation_in;
    [| apply Permutation_sym]; apply value_counts_keys.
Qed.

Lemma value_counts_count (values : list string) (c : string) (n : nat) :
  In (c, n) (value_counts values) ->
  n = occurrences c values /\ 1 <= n.
Proof.
  intro H.
  assert (Hc : In c values).
  { apply value_counts_In. apply in_map_iff. now exists (c, n). }
  assert (En : n = occurrences c values).
  { apply (Permutation_in _ (sort_descending_Permutation _)) in H.
    rewrite <- (count_of_In (counts_by_appearance values) c n).
    - unfold counts_by_appearance. now rewrite count_of_fold.
    - rewrite counts_by_appearance_keys. apply unique_NoDup.
    - exact H. }
  split; [exact En |]. subst n. unfold occurrences.
  now apply (count_occ_In string_dec).
Qed.

Lemma value_counts_counted (values : list string) :
  counted (value_counts values) = List.length values.
Proof.
  unfold value_counts.
  rewrite (counted_Permutation _ _ (sort_descending_Permutation _)).
  unfold counts_by_appearance. now rewrite counted_fold.
Qed.

(** Equal counts stay in order of appearance. *)
Example value_counts_ties :
  value_counts [Comfortable; VeryHot; VeryWet; VeryHot; VeryWet]
  = [(VeryHot, 2); (VeryWet, 2); (Comfortable, 1)].
Proof. reflexivity. Qed.

Lemma value_counts_sorted (values : list string) :
  StronglySorted more_frequent (value_counts values).
Proof. apply sort_descending_sorted. Qed.

End Labels.

(** ** Probabilities and their rounding *)

Section Assessment.

Local Open Scope list_scope.
Local Open Scope Q_scope.



Lemma of_count_positive (n : nat) : (0 < n)%nat -> 0 < of_count n.
Proof.
  intro H. unfold of_count. change 0 with (inject_Z 0).
  rewrite <- Zlt_Qlt. lia.
Qed.

Lemma probability_ok (count total : nat) :
  (0 < total)%nat ->
  probability count total = Ok (of_count count / of_count total * 100).
Proof.
  intro H. unfold probability, truediv.
  destruct (Qeq_bool (of_count total) 0) eqn:E; [| reflexivity].
  apply Qeq_bool_eq in E. pose proof (of_count_positive total H). lra.
Qed.

Lemma probabilities_ok (items : list (string * nat)) (total : nat) :
  (0 < total)%nat ->
  exists lines,
    probabilities items total = Ok lines /\
    map item_of lines = items /\
    Forall (fun l => percent l = of_count (slots l) / of_count total * 100)
           lines.
Proof.
  intro H. induction items as [| [c n] items (lines & E & M & F)].
  - exists []. repeat split. constructor.
  - eexists. simpl. rewrite (probability_ok n total H), E. simpl.
    split; [reflexivity |]. split.
    + simpl. unfold item_of at 1. simpl. now rewrite M.
    + constructor; [reflexivity | exact F].
Qed.

Lemma round_half_even_error (x : Q) :
  Qabs (inject_Z (round_half_even x) - x) <= 1 # 2.
Proof.
  apply Qabs_Qle_condition. unfold round_half_even.
  pose proof (Qfloor_le x) as L. pose proof (Qlt_floor x) as U.
  rewrite inject_Z_plus in U. change (inject_Z 1) with 1 in U.
  destruct (Qcompare_spec (x - inject_Z (Qfloor x)) (1 # 2)) as [E | E | E].
  - destruct (Z.even (Qfloor x));
      rewrite ?inject_Z_plus; change (inject_Z 1) with 1; lra.
  - lra.
  - rewrite inject_Z_plus. change (inject_Z 1) with 1. lra.
Qed.


End Assessment.

(** ** The probabilities on doubles *)

Section Binary64.

Local Open Scope list_scope.
Local Open Scope Q_scope.

(** Every double of a run of at most [checked_slots] slots, evaluated. *)
Lemma all_near_checked : all_near checked_slots = true.
Proof. vm_compute. reflexivity. Qed.

Lemma near_checked (count total : nat) :
  (1 <= count)%nat -> (count <= total)%nat -> (total <= checked_slots)%nat ->
  near count total = true.
Proof.
  intros H1 H2 H3. pose proof all_near_checked as A. unfold all_near in A.
  rewrite forallb_forall in A.
  assert (Ht : In total (seq 1 checked_slots)) by (apply in_seq; lia).
  specialize (A total Ht). rewrite forallb_forall in A.
  apply A. apply in_seq. lia.
Qed.

Lemma near_facts (count total : nat) :
  near count total = true ->
  exists q,
    double_value (computed count total) = Some q /\
    Qabs (q - 100 * of_count count / of_count total) <= margin /\
    0 < q <= 100.
Proof.
  unfold near. destruct (double_value (computed count total)) as [q |];
    [| discriminate].
  intro H. apply andb_true_iff in H. destruct H as [H H3].
  apply andb_true_iff in H. destruct H as [H1 H2].
  apply Qle_bool_iff in H1, H3. apply negb_true_iff in H2.
  exists q. split; [reflexivity |]. split; [exact H1 |].
  split; [| exact H3]. apply Qnot_le_lt. intro L.
  apply Qle_bool_iff in L. congruence.
Qed.




End Binary64.

(** ** The run *)

Section Run.

Local Open Scope list_scope.

Lemma probabilities_items (items : list (string * nat)) (total : nat)
    (lines : list Line) :
  probabilities items total = Ok lines -> map item_of lines = items.
Proof.
  revert lines. induction items as [| [c n] items IH]; simpl; intros lines H.
  - injection H as <-. reflexivity.
  - destruct (probability n total) as [p |]; simpl in H; [| discriminate].
    destruct (probabilities items total) as [rest |]; simpl in H;
      [| discriminate].
    injection H as <-. simpl. unfold item_of at 1. simpl. f_equal.
    now apply IH.
Qed.

(** What a rendered page holds. *)
Lemma run_rendered (place : string) (d : date) (fl : list Raw.forecast)
    (report : Report) :
  run place d fl = Ok (Rendered report) ->
  exists selected,
    selected_forecast d fl = Ok selected /\
    selected <> [] /\
    df selected = Ok (frame report) /\
    conditions report = Condition (frame report) /\
    total_slots report = List.length (frame report) /\
    (0 < total_slots report)%nat /\
    probabilities (risk_counts (conditions report)) (total_slots report)
      = Ok (assessment report) /\
    insight report = summary place d (unique (conditions report)).
Proof.
  unfold run. intro H.
  destruct (selected_forecast d fl) as [selected |]; simpl in H;
    [| discriminate].
  destruct selected as [| f rest]; [discriminate |].
  destruct (df (f :: rest)) as [rows |] eqn:Edf; simpl in H; [| discriminate].
  destruct (probabilities (risk_counts (Condition rows)) (List.length rows))
    as [lines |] eqn:Ep; simpl in H; [| discriminate].
  injection H as <-. simpl. exists (f :: rest).
  repeat split; try assumption; try reflexivity; try discriminate.
  rewrite (df_length _ _ Edf). simpl. lia.
Qed.

(** A non-empty selection of complete records is rendered. *)
Lemma run_renders (place : string) (d : date) (fl selected : list Raw.forecast)
    (rows : list Row) :
  selected_forecast d fl = Ok selected -> selected <> [] ->
  df selected = Ok rows ->
  exists report, run place d fl = Ok (Rendered report) /\ frame report = rows.
Proof.
  intros Hs Hn Hd. unfold run. rewrite Hs. simpl.
  destruct selected as [| f rest]; [congruence |]. rewrite Hd. simpl.
  assert (Hpos : (0 < List.length rows)%nat).
  { rewrite (df_length _ _ Hd). simpl. lia. }
  destruct (probabilities_ok (risk_counts (Condition rows)) _ Hpos)
    as (lines & E & _).
  rewrite E. simpl. eexists. split; reflexivity.
Qed.

Lemma Condition_in_RiskCategory (rows : list Row) (c : string) :
  In c (Condition rows) -> In c RiskCategory.
Proof.
  unfold Condition. rewrite in_map_iff. intros (row & <- & _).
  apply weather_risk_in_RiskCategory.
Qed.

Lemma slots_total_counted (lines : list Line) :
  slots_total lines = counted (map item_of lines).
Proof.
  induction lines as [| l lines IH]; [reflexivity |].
  change (slots l + slots_total lines
          = slots l + counted (map item_of lines)).
  now rewrite IH.
Qed.

(** C7 (as amended): the aggregation code signals nothing on an empty
    slot sequence: with no label and [total_slots] = 0 the mapping is
    empty, the division is never reached and the assessment and the chart
    are empty.  The empty case is handled by the caller: a run whose
    normalization yields no slot for the date ends with the no-data
    warning instead of an assessment, and classification and aggregation
    are only reached by a run with at least one slot. *)
Theorem empty_run_stops (place : string) (d : date)
    (forecast_list : list Raw.forecast) :
  (risk_counts [] = [] /\
   probabilities (risk_counts []) 0 = Ok [] /\
   probability_chart (risk_counts []) 0 = Ok ([], [])) /\
  (normalize d forecast_list = Ok [] ->
     run place d forecast_list = Ok (Stopped no_data_warning)) /\
  (forall report,
     run place d forecast_list = Ok (Rendered report) ->
     (0 < total_slots report)%nat /\ frame report <> [] /\
     normalize d forecast_list = Ok (frame report)).
Proof.
  split; [repeat split |]. split.
  - unfold normalize, run.
    destruct (selected_forecast d forecast_list) as [selected |]; simpl;
      [| discriminate].
    intro H. apply df_length in H. destruct selected; [reflexivity |].
    discriminate.
  - intros report H.
    destruct (run_rendered _ _ _ _ H) as (sel & Hs & Hn & Hd & _ & Ht & Hp & _).
    split; [exact Hp |]. split.
    + intro E. rewrite E in Ht. simpl in Ht. lia.
    + unfold normalize. rewrite Hs. exact Hd.
Qed.

Lemma empty_run_stops_witness :
  normalize third_of_november [next_day] = Ok [] /\
  run "Mumbai" third_of_november [next_day] = Ok (Stopped no_data_warning).
Proof.
  split; [reflexivity |].
  apply (empty_run_stops "Mumbai" third_of_november [next_day]).
  reflexivity.
Defined.

(** C7, as stated, fails: run on an empty sequence of labels, with
    [total_slots] = 0, the aggregation code of lines 104-110 returns the
    empty assessment; it raises nothing. *)
Lemma aggregation_of_no_slots :
  probabilities (risk_counts []) (List.length (@nil Row)) = Ok [] /\
  (forall e, probabilities (risk_counts []) 0 <> Raise e).
Proof.
  split; [reflexivity | discriminate].
Qed.

(** C3 (as amended): in a rendered run the mapping holds exactly the
    categories that occur, each once and with its number of slots (at
    least one), and iterates from the most frequent category to the
    least frequent one; the written lines follow that order. *)
Theorem risk_counts_most_frequent_first (place : string) (d : date)
    (forecast_list : list Raw.forecast) (report : Report) :
  run place d forecast_list = Ok (Rendered report) ->
  let mapping := risk_counts (conditions report) in
  map item_of (assessment report) = mapping /\
  (forall c, In c (map fst mapping) <-> In c (conditions report)) /\
  NoDup (map fst mapping) /\
  (forall c n, In (c, n) mapping ->
     n = occurrences c (conditions report) /\ 1 <= n) /\
  StronglySorted more_frequent mapping.
Proof.
  intros H mapping.
  destruct (run_rendered _ _ _ _ H) as (_ & _ & _ & _ & _ & _ & _ & Hp & _).
  split; [exact (probabilities_items _ _ _ Hp) |].
  split; [intro c; apply value_counts_In |].
  split; [apply value_counts_NoDup |].
  split; [intros c n; apply value_counts_count |].
  apply value_counts_sorted.
Qed.

Lemma risk_counts_most_frequent_first_witness :
  exists report,
    run "Mumbai" third_of_november [dawn; morning; afternoon]
      = Ok (Rendered report) /\
    map item_of (assessment report) = [(VeryHot, 2); (Comfortable, 1)] /\
    StronglySorted more_frequent (risk_counts (conditions report)).
Proof.
  assert (E : exists report,
             run "Mumbai" third_of_november [dawn; morning; afternoon]
               = Ok (Rendered report)) by (eexists; lazy; reflexivity).
  destruct E as (report & E). exists report. split; [exact E |].
  destruct (risk_counts_most_frequent_first _ _ _ _ E) as (_ & _ & _ & _ & S).
  split; [| exact S].
  clear S. lazy in E. injection E as <-. reflexivity.
Defined.

(** C3, as stated, fails: with the labels Comfortable, Very Hot, Very
    Hot the mapping starts with Very Hot, the most frequent label, and
    not with Comfortable, the label met first. *)
Lemma most_frequent_before_first_met :
  exists report,
    run "Mumbai" third_of_november [dawn; morning; afternoon]
      = Ok (Rendered report) /\
    conditions report = [Comfortable; VeryHot; VeryHot] /\
    unique (conditions report) = [Comfortable; VeryHot] /\
    map fst (risk_counts (conditions report)) = [VeryHot; Comfortable] /\
    map condition (assessment report) = [VeryHot; Comfortable] /\
    map fst (risk_counts (conditions report)) <> unique (conditions report).
Proof.
  eexists. split; [lazy; reflexivity |].
  repeat (split; [reflexivity |]). discriminate.
Qed.


(** What the lines of a rendered run count. *)
Lemma rendered_counts (place : string) (d : date) (fl : list Raw.forecast)
    (report : Report) :
  run place d fl = Ok (Rendered report) ->
  slots_total (assessment report) = total_slots report /\
  total_slots report = List.length (frame report) /\
  (0 < total_slots report)%nat /\
  Forall (fun l =>
            slots l = occurrences (condition l) (conditions report) /\
            1 <= slots l <= total_slots report)
         (assessment report) /\
  List.length (assessment report) <= 6.
Proof.
  intro H.
  destruct (run_rendered _ _ _ _ H)
    as (sel & _ & _ & _ & Hc & Ht & Hpos & Hp & _).
  pose proof (probabilities_items _ _ _ Hp) as Hi.
  assert (Hlen : List.length (conditions report) = total_slots report).
  { rewrite Hc, Ht. unfold Condition. apply length_map. }
  split.
  { rewrite slots_total_counted, Hi. unfold risk_counts.
    now rewrite value_counts_counted. }
  split; [exact Ht |]. split; [exact Hpos |]. split.
  - rewrite Forall_forall. intros l Hl.
    assert (Hin : In (condition l, slots l) (value_counts (conditions report))).
    { change (In (item_of l) (risk_counts (conditions report))).
      rewrite <- Hi. now apply in_map. }
    destruct (value_counts_count _ _ _ Hin) as [En H1].
    split; [exact En |]. split; [exact H1 |].
    rewrite En, <- Hlen. unfold occurrences. apply count_occ_bound.
  - rewrite <- (length_map item_of), Hi, <- (length_map fst).
    change 6 with (List.length RiskCategory).
    apply NoDup_incl_length; [apply value_counts_NoDup |].
    intros c Hin. apply (proj1 (value_counts_In _ _)) in Hin.
    rewrite Hc in Hin. now apply Condition_in_RiskCategory in Hin.
Qed.





(** Near a tie the double decides: 23 slots of 80 are 28.75 exactly, which
    would round to 28.8, but the computed double lies below and is
    printed as 28.7. *)
Example near_tie_in_binary64 :
  one_decimal (100 * of_count 23 / of_count 80) = (288 # 10)%Q /\
  option_map Qred (double_value (computed 23 80))
    = Some (8092405580431359 # 281474976710656)%Q /\
  printed (computed 23 80) = Some (287 # 10)%Q.
Proof. split; [| split]; vm_compute; reflexivity. Qed.

(** One slot in six, computed on doubles, is shown as 16.7 too. *)
Example sixth_in_binary64 :
  option_map Qred (double_value (probability_double 1 6))
    = Some (2345624805922133 # 140737488355328)%Q /\
  option_map one_decimal (double_value (probability_double 1 6))
    = Some (167 # 10)%Q.
Proof. split; vm_compute; reflexivity. Qed.

(** *** The summary *)

Lemma append_assoc (a b c : string) :
  ((a ++ b) ++ c = a ++ (b ++ c))%string.
Proof.
  induction a as [| ch a IH]; simpl; [reflexivity |]. now rewrite IH.
Qed.

Lemma append_empty (a : string) : (a ++ "" = a)%string.
Proof.
  induction a as [| ch a IH]; simpl; [reflexivity |]. now rewrite IH.
Qed.

(** The chain of [if]s appends the clauses of the categories present,
    in the fixed order. *)
Lemma summary_clauses (place : string) (d : date) (present : list string) :
  summary place d present
  = (base_sentence place d present ++ advisory_clauses present)%string.
Proof.
  unfold summary, advisory_clauses, advice_in_order.
  generalize (base_sentence place d present). intro base.
  cbn [filter fst snd].
  destruct (contains VeryHot present);
    destruct (contains VeryCold present);
    destruct (contains VeryWindy present);
    destruct (contains VeryWet present);
    destruct (contains VeryUncomfortable present);
    destruct (contains Comfortable present);
    cbn [map fold_right snd];
    rewrite ?append_assoc, ?append_empty; reflexivity.
Qed.

(** C9: the summary of a rendered run is the base sentence, naming the
    distinct categories in the order in which they are first met,
    followed by one advisory clause for each category present and none
    for an absent one, in the order Very Hot, Very Cold, Very Windy,
    Very Wet, Very Uncomfortable, Comfortable. *)
Theorem insight_structure (place : string) (d : date)
    (forecast_list : list Raw.forecast) (report : Report) :
  run place d forecast_list = Ok (Rendered report) ->
  let present := unique (conditions report) in
  insight report
  = (("For " ++ place ++ " on " ++ str d ++ ", conditions are mostly: "
      ++ concat ", " present ++ ".")
     ++ advisory_clauses present)%string /\
  NoDup present /\
  (forall c, In c present <-> In c (conditions report)) /\
  StronglySorted (met_before (conditions report)) present.
Proof.
  intros H present.
  destruct (run_rendered _ _ _ _ H) as (_ & _ & _ & _ & _ & _ & _ & _ & Hi).
  split; [rewrite Hi; apply summary_clauses |].
  split; [apply unique_NoDup |].
  split; [intro c; apply unique_In |].
  apply unique_first_occurrence_order.
Qed.

Lemma insight_structure_witness :
  exists report,
    run "Mumbai" third_of_november [dawn; morning; afternoon]
      = Ok (Rendered report) /\
    insight report
    = ("For Mumbai on 2026-11-03, conditions are mostly: "
       ++ "Comfortable, Very Hot."
       ++ hot_advice ++ comfortable_advice)%string.
Proof.
  assert (E : exists report,
             run "Mumbai" third_of_november [dawn; morning; afternoon]
               = Ok (Rendered report)) by (eexists; lazy; reflexivity).
  destruct E as (report & E). exists report. split; [exact E |].
  destruct (insight_structure _ _ _ _ E) as (S & _).
  rewrite S. clear S. lazy in E. injection E as <-. reflexivity.
Defined.

End Run.

(** * Further properties *)

(** ** More on the classifier *)

Section Thresholds.

Local Open Scope Q_scope.

(** Decide every test of [weather_risk], keeping the facts. *)
Ltac split_rules :=
  unfold weather_risk;
  repeat match goal with
    | |- context [num_ge ?a ?b] =>
        destruct (num_ge_cases a b) as [[-> ?] | [-> ?]]
    | |- context [num_le ?a ?b] =>
        destruct (num_le_cases a b) as [[-> ?] | [-> ?]]
    | |- context [num_gt ?a ?b] =>
        destruct (num_gt_cases a b) as [[-> ?] | [-> ?]]
    end;
  cbn [andb].

(** X1: on finite readings (the numbers of the model: a NaN compares
    false with everything and falls through the rules) each label is
    returned exactly under the condition of its rule and the failure of
    the rules before it. *)
Theorem weather_risk_exactly_when (temp wind rain humidity : Q) :
  (weather_risk temp wind rain humidity = VeryHot <-> 35 <= temp) /\
  (weather_risk temp wind rain humidity = VeryCold <-> temp <= 10) /\
  (weather_risk temp wind rain humidity = VeryWindy
     <-> 10 < temp < 35 /\ 10 <= wind) /\
  (weather_risk temp wind rain humidity = VeryWet
     <-> 10 < temp < 35 /\ wind < 10 /\ 2 < rain) /\
  (weather_risk temp wind rain humidity = VeryUncomfortable
     <-> 20 <= temp <= 32 /\ wind < 10 /\ rain <= 2 /\ 80 <= humidity) /\
  (weather_risk temp wind rain humidity = Comfortable
     <-> 10 < temp < 35 /\ wind < 10 /\ rain <= 2 /\
         (humidity < 80 \/ temp < 20 \/ 32 < temp)).
Proof.
  split_rules; repeat (apply conj); intro E;
    first [discriminate E | reflexivity | lra | exfalso; lra | intuition lra].
Qed.

Lemma weather_risk_exactly_when_witness :
  weather_risk 25 3 1 85 = VeryUncomfortable /\
  (20 <= 25 <= 32 /\ 3 < 10 /\ 1 <= 2 /\ 80 <= 85).
Proof.
  split; [reflexivity |].
  apply (weather_risk_exactly_when 25 3 1 85). reflexivity.
Defined.

(** X2: between 32 and 35 degrees, with wind below 10 and rain at most 2,
    a slot is Comfortable at every humidity: the uncomfortable rule stops
    at 32 degrees and the hot rule starts at 35. *)
Theorem warm_slot_comfortable (temp wind rain humidity : Q) :
  32 < temp -> temp < 35 -> wind < 10 -> rain <= 2 ->
  weather_risk temp wind rain humidity = Comfortable.
Proof.
  intros. split_rules; try reflexivity; exfalso; lra.
Qed.

Lemma warm_slot_comfortable_witness :
  (32 < 33 /\ 33 < 35 /\ 3 < 10 /\ 0 <= 2) /\
  weather_risk 33 3 0 100 = Comfortable.
Proof.
  split.
  - split; [lra | split; [lra | split; lra]].
  - apply (warm_slot_comfortable 33 3 0 100); lra.
Defined.

(** X3: wind, rain and humidity matter only through their threshold
    tests: two readings at the same temperature that agree on wind >= 10,
    rain > 2 and humidity >= 80 get the same label. *)
Theorem weather_risk_threshold_tests
    (temp wind wind' rain rain' humidity humidity' : Q) :
  (10 <= wind <-> 10 <= wind') ->
  (2 < rain <-> 2 < rain') ->
  (80 <= humidity <-> 80 <= humidity') ->
  weather_risk temp wind rain humidity
  = weather_risk temp wind' rain' humidity'.
Proof.
  intros Hw Hr Hh. split_rules; try reflexivity; exfalso;
    intuition lra.
Qed.

Lemma weather_risk_threshold_tests_witness :
  weather_risk 25 3 0 85 = weather_risk 25 (-4) 2 250.
Proof.
  apply (weather_risk_threshold_tests 25 3 (-4) 0 2 85 250);
    split; intro; lra.
Defined.

(** X4: the thresholds the other rules use.  Wind of exactly 10 is Very
    Windy and rain of exactly 2 is not Very Wet; with humidity at least
    80, wind below 10 and rain at most 2, temperatures of exactly 20 and
    exactly 32 are Very Uncomfortable. *)
Theorem weather_risk_inner_thresholds (temp wind rain humidity : Q) :
  (10 < temp < 35 -> wind == 10 ->
     weather_risk temp wind rain humidity = VeryWindy) /\
  (rain == 2 -> weather_risk temp wind rain humidity <> VeryWet) /\
  (temp == 20 \/ temp == 32 -> wind < 10 -> rain <= 2 -> 80 <= humidity ->
     weather_risk temp wind rain humidity = VeryUncomfortable).
Proof.
  split; [| split].
  - intros [H1 H2] H3. split_rules; try reflexivity; exfalso; lra.
  - intro H. split_rules; try discriminate; exfalso; lra.
  - intros [H | H] H1 H2 H3; split_rules; try reflexivity; exfalso; lra.
Qed.

Lemma weather_risk_inner_thresholds_witness :
  weather_risk 25 10 0 0 = VeryWindy /\
  weather_risk 25 3 2 0 <> VeryWet /\
  weather_risk 20 3 2 80 = VeryUncomfortable /\
  weather_risk 32 3 0 95 = VeryUncomfortable.
Proof.
  destruct (weather_risk_inner_thresholds 25 10 0 0) as (windy & _).
  destruct (weather_risk_inner_thresholds 25 3 2 0) as (_ & dry & _).
  destruct (weather_risk_inner_thresholds 20 3 2 80) as (_ & _ & low).
  destruct (weather_risk_inner_thresholds 32 3 0 95) as (_ & _ & high).
  split; [apply windy; [lra | reflexivity] |].
  split; [apply dry; reflexivity |].
  split; [apply low; [left; reflexivity | lra | lra | lra] |].
  apply high; [right; reflexivity | lra | lra | lra].
Defined.

End Thresholds.

(** ** More on the run *)

Section Outcomes.

Local Open Scope list_scope.

Lemma timestamps_or_not (fl : list Raw.forecast) :
  Forall (fun f => has_timestamp f = true) fl \/
  Exists (fun f => has_timestamp f = false) fl.
Proof.
  induction fl as [| f fl [IH | IH]].
  - left. constructor.
  - destruct (has_timestamp f) eqn:E.
    + left. now constructor.
    + right. now left.
  - right. now right.
Qed.

Lemma required_or_not (sel : list Raw.forecast) :
  Forall (fun f => has_required f = true) sel \/
  Exists (fun f => has_required f = false) sel.
Proof.
  induction sel as [| f sel [IH | IH]].
  - left. constructor.
  - destruct (has_required f) eqn:E.
    + left. now constructor.
    + right. now left.
  - right. now right.
Qed.

Lemma df_row_errors (f : Raw.forecast) (e : exn) :
  df_row f = Raise e -> record_error e.
Proof.
  unfold df_row, record_error, record_keys. intro H.
  destruct (Raw.dt_txt f); simpl in H;
    [| injection H as <-; right; eexists; split; [reflexivity | simpl; tauto]].
  destruct (Raw.main_ f) as [m |]; simpl in H;
    [| injection H as <-; right; eexists; split; [reflexivity | simpl; tauto]].
  destruct (Raw.temp m); simpl in H;
    [| injection H as <-; right; eexists; split; [reflexivity | simpl; tauto]].
  destruct (Raw.humidity m); simpl in H;
    [| injection H as <-; right; eexists; split; [reflexivity | simpl; tauto]].
  destruct (Raw.wind_ f) as [w |]; simpl in H;
    [| injection H as <-; right; eexists; split; [reflexivity | simpl; tauto]].
  destruct (Raw.speed w); simpl in H;
    [| injection H as <-; right; eexists; split; [reflexivity | simpl; tauto]].
  destruct (Raw.weather_ f) as [[| w0 ws] |]; simpl in H;
    [injection H as <-; now left | |
     injection H as <-; right; eexists; split; [reflexivity | simpl; tauto]].
  destruct (Raw.description w0); simpl in H;
    [discriminate |
     injection H as <-; right; eexists; split; [reflexivity | simpl; tauto]].
Qed.

Lemma df_errors (sel : list Raw.forecast) (e : exn) :
  df sel = Raise e -> record_error e.
Proof.
  induction sel as [| f sel IH]; simpl; [discriminate |].
  destruct (df_row f) eqn:E; simpl.
  - destruct (df sel); simpl; [discriminate |].
    intro H. injection H as <-. now apply IH.
  - intro H. injection H as <-. now apply (df_row_errors f).
Qed.

Lemma selected_forecast_errors (d : date) (fl : list Raw.forecast) (e : exn) :
  selected_forecast d fl = Raise e -> e = KeyError "dt_txt".
Proof.
  induction fl as [| f fl IH]; simpl; [discriminate |].
  destruct (Raw.dt_txt f); simpl.
  - destruct (selected_forecast d fl); simpl; [discriminate |].
    intro H. injection H as <-. now apply IH.
  - intro H. now injection H as <-.
Qed.

Lemma df_ok_required (sel : list Raw.forecast) (rows : list Row) :
  df sel = Ok rows -> Forall (fun f => has_required f = true) sel.
Proof.
  intro H. destruct (required_or_not sel) as [F | X]; [exact F |].
  destruct (df_malformed sel X) as (e & E). congruence.
Qed.

Lemma filter_timestamps (d : date) (fl : list Raw.forecast) :
  Forall (fun f => has_timestamp f = true) fl ->
  Forall (fun f => has_timestamp f = true) (filter (on_target_date d) fl).
Proof.
  rewrite !Forall_forall. intros H f Hf. apply filter_In in Hf.
  apply H. tauto.
Qed.

Lemma run_errors (place : string) (d : date) (fl : list Raw.forecast)
    (e : exn) :
  run place d fl = Raise e -> record_error e.
Proof.
  unfold run. intro H.
  destruct (selected_forecast d fl) as [sel |] eqn:Es; simpl in H.
  - destruct sel as [| f rest]; [discriminate |].
    destruct (df (f :: rest)) as [rows |] eqn:Ed; simpl in H.
    + assert (Hpos : (0 < List.length rows)%nat).
      { rewrite (df_length _ _ Ed). simpl. lia. }
      destruct (probabilities_ok (risk_counts (Condition rows)) _ Hpos)
        as (lines & E & _).
      rewrite E in H. discriminate.
    + injection H as <-. now apply (df_errors (f :: rest)).
  - injection H as <-. apply selected_forecast_errors in Es. subst.
    right. eexists. split; [reflexivity | simpl; tauto].
Qed.

(** X5: on a response that follows the provider's schema (every field
    that is present holds a value of its type), the script never divides
    by zero, and an offered place is always found: the only exceptions
    that leave it are the KeyError for a key the response lacks ("list"
    or a record key) and the IndexError of an empty weather array. *)
Theorem script_exceptions (key : option string) (place : string) (d : date)
    (requests_get : Q -> Q -> option string -> response) (e : exn) :
  In place place_options ->
  script key place d requests_get = Raise e ->
  e = IndexError \/
  exists k, e = KeyError k /\ In k ("list" :: record_keys).
Proof.
  intros Hp H. unfold script in H.
  destruct (negb (truthy key)); [discriminate |].
  assert (Hl : exists c, lookup place popular_places = Ok c).
  { unfold place_options in Hp. simpl in Hp.
    destruct Hp as [<- | [<- | [<- | [<- | [<- | []]]]]]; eexists; reflexivity. }
  destruct Hl as ([lat lon] & Hl). rewrite Hl in H. simpl in H.
  destruct (requests_get lat lon key) as [body | msg]; [| discriminate].
  destruct (list_ body) as [fl |]; simpl in H.
  - destruct (run place d fl) as [o |] eqn:Er; simpl in H; [discriminate |].
    injection H as <-. destruct (run_errors _ _ _ _ Er) as [-> | (k & -> & Hk)].
    + now left.
    + right. exists k. split; [reflexivity | now right].
  - injection H as <-. right. eexists. split; [reflexivity | now left].
Qed.

Lemma script_exceptions_witness :
  In "Delhi" place_options /\
  script (Some "k") "Delhi" third_of_november
         (always [morning; no_temperature])
    = Raise (KeyError "temp") /\
  (KeyError "temp" = IndexError \/
   exists k, KeyError "temp" = KeyError k /\ In k ("list" :: record_keys)).
Proof.
  split; [right; left; reflexivity |].
  split; [reflexivity |].
  apply (script_exceptions (Some "k") "Delhi" third_of_november
           (always [morning; no_temperature])).
  - right. left. reflexivity.
  - reflexivity.
Defined.

(** X6: how a run ends, read off a fetched list that follows the
    provider's schema (every field that is present holds a value of its
    type).  It renders exactly
    when every record has a timestamp, some record is of the target date
    and all records of that date carry the required fields; it stops with
    the no-data warning exactly when every record has a timestamp and
    none is of the target date; it raises in the remaining cases. *)
Theorem run_outcomes (place : string) (d : date) (fl : list Raw.forecast) :
  ((exists report, run place d fl = Ok (Rendered report)) <->
     Forall (fun f => has_timestamp f = true) fl /\
     filter (on_target_date d) fl <> [] /\
     Forall (fun f => has_required f = true) (filter (on_target_date d) fl)) /\
  ((exists warning, run place d fl = Ok (Stopped warning)) <->
     Forall (fun f => has_timestamp f = true) fl /\
     filter (on_target_date d) fl = []) /\
  ((exists e, run place d fl = Raise e) <->
     Exists (fun f => has_timestamp f = false) fl \/
     Exists (fun f => has_required f = false) (filter (on_target_date d) fl)).
Proof.
  destruct (timestamps_or_not fl) as [Ht | Hx].
  - pose proof (selected_forecast_filter d fl Ht) as Hs.
    pose proof (filter_timestamps d fl Ht) as Ht'.
    assert (Hno : ~ Exists (fun f => has_timestamp f = false) fl).
    { intro X. apply Exists_exists in X. destruct X as (f & Hf & E).
      rewrite Forall_forall in Ht. rewrite (Ht f Hf) in E. discriminate. }
    destruct (filter (on_target_date d) fl) as [| f sel] eqn:Ef.
    + assert (R : run place d fl = Ok (Stopped no_data_warning)).
      { unfold run. rewrite Hs. reflexivity. }
      rewrite R. split; [split | split; split].
      * intros (report & E). discriminate.
      * intros (_ & N & _). congruence.
      * intros _. split; [exact Ht | reflexivity].
      * intros _. eexists. reflexivity.
      * intros (e & E). discriminate.
      * intros [X | X]; [tauto | inversion X].
    + destruct (required_or_not (f :: sel)) as [Hr | Hr].
      * destruct (df_complete _ Ht' Hr) as (rows & Ed & _).
        destruct (run_renders place d fl (f :: sel) rows Hs) as (report & R & _);
          [discriminate | exact Ed |].
        rewrite R. split; [split | split; split].
        -- intros _. split; [exact Ht |]. split; [discriminate | exact Hr].
        -- intros _. eexists. reflexivity.
        -- intros (w & E). discriminate.
        -- intros (_ & E). discriminate.
        -- intros (e & E). discriminate.
        -- intros [X | X]; [tauto |]. exfalso.
           apply Exists_exists in X. destruct X as (g & Hg & E).
           rewrite Forall_forall in Hr. rewrite (Hr g Hg) in E. discriminate.
      * destruct (df_malformed _ Hr) as (e & Ed).
        assert (R : run place d fl = Raise e).
        { unfold run. rewrite Hs. cbn [bind]. rewrite Ed. reflexivity. }
        rewrite R. split; [split | split; split].
        -- intros (report & E). discriminate.
        -- intros (_ & _ & F). exfalso.
           apply Exists_exists in Hr. destruct Hr as (g & Hg & E).
           rewrite Forall_forall in F. rewrite (F g Hg) in E. discriminate.
        -- intros (w & E). discriminate.
        -- intros (_ & E). discriminate.
        -- intros _. right. exact Hr.
        -- intros _. eexists. reflexivity.
  - assert (Hf : ~ Forall (fun f => has_timestamp f = true) fl).
    { intro F. apply Exists_exists in Hx. destruct Hx as (f & Hf & E).
      rewrite Forall_forall in F. rewrite (F f Hf) in E. discriminate. }
    assert (R : run place d fl = Raise (KeyError "dt_txt")).
    { unfold run. now rewrite (selected_forecast_no_timestamp d fl Hx). }
    rewrite R. split; [split | split; split].
    + intros (report & E). discriminate.
    + intros (F & _). tauto.
    + intros (w & E). discriminate.
    + intros (F & _). tauto.
    + intros _. left. exact Hx.
    + intros _. eexists. reflexivity.
Qed.

Lemma run_outcomes_witness :
  (exists report,
     run "Delhi" third_of_november [dawn; bare_next_day; morning]
       = Ok (Rendered report)) /\
  (exists warning,
     run "Delhi" third_of_november [bare_next_day] = Ok (Stopped warning)) /\
  (exists e, run "Delhi" third_of_november [no_timestamp] = Raise e).
Proof.
  split; [| split].
  - apply (run_outcomes "Delhi" third_of_november
             [dawn; bare_next_day; morning]).
    split; [repeat constructor |].
    split; [discriminate | repeat constructor].
  - apply (run_outcomes "Delhi" third_of_november [bare_next_day]).
    split; [repeat constructor | reflexivity].
  - apply (run_outcomes "Delhi" third_of_november [no_timestamp]).
    left. left. reflexivity.
Defined.

(** X7: the timestamp is read from every record before the date is
    compared: one record without [dt_txt], anywhere in the list, makes
    the run raise KeyError('dt_txt'). *)
Theorem missing_timestamp_raises (place : string) (d : date)
    (before after : list Raw.forecast) (f : Raw.forecast) :
  Raw.dt_txt f = None ->
  run place d (before ++ f :: after) = Raise (KeyError "dt_txt").
Proof.
  intro H. unfold run.
  rewrite (selected_forecast_no_timestamp d (before ++ f :: after));
    [reflexivity |].
  apply Exists_app. right. left. unfold has_timestamp. now rewrite H.
Qed.

Lemma missing_timestamp_raises_witness :
  run "Delhi" third_of_november ([dawn; morning] ++ no_timestamp :: [noon])
  = Raise (KeyError "dt_txt").
Proof.
  apply (missing_timestamp_raises "Delhi" third_of_november
           [dawn; morning] [noon] no_timestamp).
  reflexivity.
Defined.

Lemma filter_again {A : Type} (f : A -> bool) (l : list A) :
  filter f (filter f l) = filter f l.
Proof.
  induction l as [| a l IH]; simpl; [reflexivity |].
  destruct (f a) eqn:E; simpl; [rewrite E; f_equal |]; exact IH.
Qed.

(** X8: when every record has a timestamp, only the records of the target
    date count: the run on the whole list is the run on those records
    alone; what the other records hold, or lack, changes nothing. *)
Theorem run_ignores_other_dates (place : string) (d : date)
    (fl : list Raw.forecast) :
  Forall (fun f => has_timestamp f = true) fl ->
  run place d fl = run place d (filter (on_target_date d) fl).
Proof.
  intro Ht. unfold run.
  rewrite (selected_forecast_filter d fl Ht).
  rewrite (selected_forecast_filter d _ (filter_timestamps d fl Ht)).
  now rewrite filter_again.
Qed.

Lemma run_ignores_other_dates_witness :
  run "Delhi" third_of_november [dawn; bare_next_day; morning]
  = run "Delhi" third_of_november [dawn; morning].
Proof.
  apply (run_ignores_other_dates "Delhi" third_of_november
           [dawn; bare_next_day; morning]).
  repeat constructor.
Defined.

(** X9: the frame is built record by record: when the records before an
    unreadable one are complete, the exception raised is the one of that
    record, whatever follows it. *)
Theorem first_unreadable_record_decides (good rest : list Raw.forecast)
    (bad : Raw.forecast) (e : exn) :
  Forall (fun f => complete f = true) good ->
  df_row bad = Raise e ->
  df (good ++ bad :: rest) = Raise e.
Proof.
  intros Hg Hb. induction Hg as [| f good Hf _ IH]; simpl.
  - now rewrite Hb.
  - unfold complete in Hf. apply andb_true_iff in Hf. destruct Hf as [Ht Hr].
    destruct (df_row_complete f Ht Hr) as (row & E & _).
    rewrite E. simpl. now rewrite IH.
Qed.

Lemma first_unreadable_record_decides_witness :
  df ([dawn; morning] ++ no_temperature :: [no_timestamp])
  = Raise (KeyError "temp").
Proof.
  apply (first_unreadable_record_decides [dawn; morning] [no_timestamp]
           no_temperature).
  - repeat constructor.
  - reflexivity.
Defined.

End Outcomes.

(** ** The date and the timestamps *)

Section Dates.

Lemma digit_mod (a b : nat) : digit a = digit b -> a mod 10 = b mod 10.
Proof.
  unfold digit. intro H. apply (f_equal nat_of_ascii) in H.
  pose proof (Nat.mod_upper_bound a 10) as Ha.
  pose proof (Nat.mod_upper_bound b 10) as Hb.
  rewrite !nat_ascii_embedding in H by lia. lia.
Qed.

Lemma four_digits (y : nat) :
  (Z.of_nat y <= 9999)%Z ->
  y = (y / 1000) mod 10 * 1000 + (y / 100) mod 10 * 100
      + (y / 10) mod 10 * 10 + y mod 10.
Proof.
  intro H.
  change 1000 with (10 * (10 * 10)). change 100 with (10 * 10).
  rewrite <- !Nat.Div0.div_div.
  pose proof (Nat.div_mod_eq y 10) as E0.
  pose proof (Nat.div_mod_eq (y / 10) 10) as E1.
  pose proof (Nat.div_mod_eq (y / 10 / 10) 10) as E2.
  pose proof (Nat.mod_upper_bound y 10) as B0.
  pose proof (Nat.mod_upper_bound (y / 10) 10) as B1.
  pose proof (Nat.mod_upper_bound (y / 10 / 10) 10) as B2.
  assert (S : y / 10 / 10 / 10 < 10) by lia.
  rewrite (Nat.mod_small _ _ S). lia.
Qed.

Lemma two_digits (m : nat) :
  m <= 99 -> m = (m / 10) mod 10 * 10 + m mod 10.
Proof.
  intro H. pose proof (Nat.div_mod_eq m 10) as E0.
  assert (S : m / 10 < 10) by lia.
  rewrite (Nat.mod_small _ _ S). lia.
Qed.

Lemma str_injective (d d' : date) :
  in_range d -> in_range d' -> str d = str d' -> d = d'.
Proof.
  destruct d as [y m dd], d' as [y' m' dd']. unfold in_range, str.
  cbn [year month day].
  intros (Hy & Hm & Hd) (Hy' & Hm' & Hd') H.
  injection H as H1 H2 H3 H4 H5 H6 H7 H8.
  apply digit_mod in H1, H2, H3, H4, H5, H6, H7, H8.
  change (fst (Nat.divmod y 999 0 999)) with (y / 1000) in H1.
  change (fst (Nat.divmod y' 999 0 999)) with (y' / 1000) in H1.
  change (fst (Nat.divmod y 99 0 99)) with (y / 100) in H2.
  change (fst (Nat.divmod y' 99 0 99)) with (y' / 100) in H2.
  change (fst (Nat.divmod y 9 0 9)) with (y / 10) in H3.
  change (fst (Nat.divmod y' 9 0 9)) with (y' / 10) in H3.
  change (fst (Nat.divmod m 9 0 9)) with (m / 10) in H5.
  change (fst (Nat.divmod m' 9 0 9)) with (m' / 10) in H5.
  change (fst (Nat.divmod dd 9 0 9)) with (dd / 10) in H7.
  change (fst (Nat.divmod dd' 9 0 9)) with (dd' / 10) in H7.
  assert (Ey : y = y').
  { rewrite (four_digits y), (four_digits y') by lia.
    rewrite H1, H2, H3, H4. reflexivity. }
  assert (Em : m = m').
  { rewrite (two_digits m), (two_digits m') by lia.
    rewrite H5, H6. reflexivity. }
  assert (Ed : dd = dd').
  { rewrite (two_digits dd), (two_digits dd') by lia.
    rewrite H7, H8. reflexivity. }
  subst. reflexivity.
Qed.

Lemma prefix_same_length (p a b : string) :
  String.length p = String.length a ->
  prefix p (a ++ b) = true <-> p = a.
Proof.
  revert a. induction p as [| c p IH]; intros [| c' a] H; simpl in H;
    try discriminate.
  - simpl. destruct b; tauto.
  - simpl. destruct (ascii_dec c c') as [-> | N].
    + rewrite IH by lia. split; [now intros -> | now intros [= ->]].
    + split; [discriminate | intros [= E _]; contradiction].
Qed.

(** X10: dates are told apart by their printed form, and the selection
    compares nothing else: a record stamped with the printed form of a
    date followed by any clock text is selected exactly for that date. *)
Theorem selected_by_printed_date (d d' : date) (clock : string)
    (f : Raw.forecast) :
  in_range d -> in_range d' ->
  Raw.dt_txt f = Some (str d' ++ clock) ->
  (d' = d -> selected_forecast d [f] = Ok [f]) /\
  (d' <> d -> selected_forecast d [f] = Ok []).
Proof.
  intros Hd Hd' Hf. cbn [selected_forecast]. rewrite Hf.
  cbn [getitem bind]. unfold startswith.
  pose proof (prefix_same_length (str d) (str d') clock eq_refl) as P.
  split; intro H.
  - subst d'. replace (prefix (str d) (str d ++ clock)) with true;
      [reflexivity |]. symmetry. now apply P.
  - destruct (prefix (str d) (str d' ++ clock)) eqn:E; [| reflexivity].
    exfalso. apply H. symmetry. apply (str_injective d d' Hd Hd').
    now apply P.
Qed.

Lemma selected_by_printed_date_witness :
  selected_forecast third_of_november [morning] = Ok [morning] /\
  selected_forecast {| year := 2026; month := 11; day := 4 |} [morning] = Ok [].
Proof.
  split.
  - apply (selected_by_printed_date third_of_november third_of_november
             " 09:00:00" morning);
      [unfold in_range; simpl; lia | unfold in_range; simpl; lia
      | reflexivity | reflexivity].
  - apply (selected_by_printed_date {| year := 2026; month := 11; day := 4 |}
             third_of_november " 09:00:00" morning);
      [unfold in_range; simpl; lia | unfold in_range; simpl; lia
      | reflexivity | discriminate].
Defined.

End Dates.

(** ** More on the assessment *)

Section Percentages.

Local Open Scope list_scope.
Local Open Scope Q_scope.

Lemma one_decimal_range (x : Q) :
  0 <= x <= 100 -> 0 <= one_decimal x <= 100.
Proof.
  intros [L U].
  pose proof (round_half_even_error (x * 10)) as H.
  apply Qabs_Qle_condition in H.
  assert (E : one_decimal x == inject_Z (round_half_even (x * 10)) * (1 # 10))
    by (unfold one_decimal; field).
  rewrite E.
  assert (Lz : (0 <= round_half_even (x * 10))%Z).
  { apply Z.lt_succ_r, Z.lt_pred_lt_succ. simpl. rewrite Zlt_Qlt.
    change (inject_Z (-1)) with (-1). lra. }
  assert (Uz : (round_half_even (x * 10) <= 1000)%Z).
  { apply Z.lt_succ_r. rewrite Zlt_Qlt. change (inject_Z (Z.succ 1000)) with 1001.
    lra. }
  rewrite Zle_Qle in Lz, Uz.
  change (inject_Z 0) with 0 in Lz. change (inject_Z 1000) with 1000 in Uz.
  lra.
Qed.

(** X11: in a rendered run every written line counts at least one slot
    and at most all of them; in a run of at most 200 slots the double
    computed for a line is above 0 and at most 100, and the number
    printed for it lies between 0.0 and 100.0. *)
Theorem probabilities_in_range (place : string) (d : date)
    (forecast_list : list Raw.forecast) (report : Report) :
  run place d forecast_list = Ok (Rendered report) ->
  Forall (fun l => (1 <= slots l <= total_slots report)%nat)
         (assessment report) /\
  ((total_slots report <= checked_slots)%nat ->
   Forall (fun l =>
             exists q p,
               double_value (computed (slots l) (total_slots report)) = Some q /\
               0 < q <= 100 /\
               printed (computed (slots l) (total_slots report)) = Some p /\
               0 <= p <= 100)
          (assessment report)).
Proof.
  intro H. destruct (rendered_counts _ _ _ _ H) as (_ & _ & _ & F & _).
  split.
  - rewrite Forall_forall in *. intros l Hl. now apply F.
  - intro Hn. rewrite Forall_forall in *. intros l Hl.
    destruct (F l Hl) as (_ & H1 & H2).
    destruct (near_facts (slots l) (total_slots report)) as (q & V & _ & R).
    { now apply near_checked. }
    exists q, (one_decimal q). split; [exact V |]. split; [exact R |].
    split; [unfold printed; now rewrite V |].
    apply one_decimal_range. lra.
Qed.

Lemma probabilities_in_range_witness :
  exists report,
    run "Mumbai" third_of_november [dawn; morning; afternoon]
      = Ok (Rendered report) /\
    Forall (fun l =>
              exists q p,
                double_value (computed (slots l) (total_slots report)) = Some q /\
                0 < q <= 100 /\
                printed (computed (slots l) (total_slots report)) = Some p /\
                0 <= p <= 100)
           (assessment report).
Proof.
  assert (E : exists report,
             run "Mumbai" third_of_november [dawn; morning; afternoon]
               = Ok (Rendered report) /\ total_slots report = 3%nat).
  { eexists. split; [lazy; reflexivity | reflexivity]. }
  destruct E as (report & E & T3). exists report. split; [exact E |].
  apply (probabilities_in_range _ _ _ _ E).
  rewrite T3. unfold checked_slots. lia.
Defined.

End Percentages.

(** ** The assessment, the chart and the summary together *)

Section Agreement.

Local Open Scope list_scope.

Lemma map_condition_items (lines : list Line) :
  map condition lines = map fst (map item_of lines).
Proof. rewrite map_map. reflexivity. Qed.

(** X12: the summary and the assessment speak of the same categories: the
    written lines carry each category named in the base sentence once,
    though in the order of their counts. *)
Theorem lines_and_summary_categories (place : string) (d : date)
    (forecast_list : list Raw.forecast) (report : Report) :
  run place d forecast_list = Ok (Rendered report) ->
  Permutation (map condition (assessment report))
              (unique (conditions report)) /\
  List.length (assessment report)
  = List.length (unique (conditions report)) /\
  1 <= List.length (assessment report) <= total_slots report.
Proof.
  intro H.
  destruct (run_rendered _ _ _ _ H)
    as (sel & _ & _ & _ & Hc & Ht & Hpos & Hp & _).
  pose proof (probabilities_items _ _ _ Hp) as Hi.
  assert (P : Permutation (map condition (assessment report))
                          (unique (conditions report))).
  { rewrite map_condition_items, Hi. apply value_counts_keys. }
  assert (L : List.length (assessment report)
              = List.length (unique (conditions report))).
  { rewrite <- (length_map condition). now apply Permutation_length. }
  split; [exact P |]. split; [exact L |].
  assert (Hlen : List.length (conditions report) = total_slots report).
  { rewrite Hc, Ht. unfold Condition. apply length_map. }
  split.
  - rewrite L. destruct (conditions report) as [| c rest] eqn:E.
    + simpl in Hlen. lia.
    + assert (Hin : In c (unique (c :: rest))) by (apply unique_In; now left).
      destruct (unique (c :: rest)); [inversion Hin | simpl; lia].
  - rewrite L, <- Hlen. apply NoDup_incl_length; [apply unique_NoDup |].
    intros c Hin. now apply unique_In.
Qed.

Lemma lines_and_summary_categories_witness :
  exists report,
    run "Mumbai" third_of_november [dawn; morning; afternoon]
      = Ok (Rendered report) /\
    Permutation (map condition (assessment report))
                (unique (conditions report)).
Proof.
  assert (E : exists report,
             run "Mumbai" third_of_november [dawn; morning; afternoon]
               = Ok (Rendered report)) by (eexists; lazy; reflexivity).
  destruct E as (report & E). exists report. split; [exact E |].
  apply (lines_and_summary_categories _ _ _ _ E).
Defined.

Lemma map_fst_filter (q : string -> bool) (l : list (string * string)) :
  map fst (filter (fun entry => q (fst entry)) l) = filter q (map fst l).
Proof.
  induction l as [| e l IH]; simpl; [reflexivity |].
  destruct (q (fst e)); simpl; now rewrite IH.
Qed.

(** X13: every category present in a rendered run has its advisory
    clause: the labels whose clause the summary appends are exactly the
    labels of the slots, so no label the classifier returns goes without
    advice and the summary ends with as many clauses as the base sentence
    names categories. *)
Theorem every_category_has_advice (place : string) (d : date)
    (forecast_list : list Raw.forecast) (report : Report) :
  run place d forecast_list = Ok (Rendered report) ->
  let present := unique (conditions report) in
  let advised :=
    filter (fun entry => contains (fst entry) present) advice_in_order in
  insight report
  = (base_sentence place d present
     ++ fold_right (fun clause rest => clause ++ rest) "" (map snd advised))%string /\
  Permutation (map fst advised) present /\
  List.length advised = List.length present.
Proof.
  intros H present advised.
  destruct (run_rendered _ _ _ _ H)
    as (sel & _ & _ & _ & Hc & _ & _ & _ & Hs).
  assert (P : Permutation (map fst advised) present).
  { unfold advised.
    rewrite (map_fst_filter (fun c => contains c present)).
    change (map fst advice_in_order) with RiskCategory.
    apply NoDup_Permutation.
    - apply NoDup_filter. exact RiskCategory_NoDup.
    - apply unique_NoDup.
    - intro c. rewrite filter_In. cbv beta. rewrite contains_In.
      split; [tauto |].
      intro Hin. split; [| exact Hin].
      apply (proj1 (unique_In _ _)) in Hin. rewrite Hc in Hin.
      now apply Condition_in_RiskCategory in Hin. }
  split; [rewrite Hs; apply summary_clauses |].
  split; [exact P |].
  rewrite <- (length_map fst). now apply Permutation_length.
Qed.

Lemma every_category_has_advice_witness :
  exists report,
    run "Mumbai" third_of_november six_conditions = Ok (Rendered report) /\
    List.length
      (filter (fun entry => contains (fst entry) (unique (conditions report)))
              advice_in_order) = 6.
Proof.
  assert (E : exists report,
             run "Mumbai" third_of_november six_conditions
               = Ok (Rendered report)) by (eexists; lazy; reflexivity).
  destruct E as (report & E). exists report. split; [exact E |].
  destruct (every_category_has_advice _ _ _ _ E) as (_ & _ & L).
  rewrite L. clear L. lazy in E. injection E as <-. reflexivity.
Defined.

Lemma chart_heights_lines (items : list (string * nat)) (total : nat)
    (lines : list Line) :
  probabilities items total = Ok lines ->
  chart_heights (map snd items) total = Ok (map percent lines).
Proof.
  revert lines. induction items as [| [c n] items IH]; simpl; intros lines H.
  - now injection H as <-.
  - destruct (probability n total) as [p |]; simpl in *; [| discriminate].
    destruct (probabilities items total) as [rest |]; simpl in *;
      [| discriminate].
    injection H as <-. now rewrite (IH rest eq_refl).
Qed.

(** X14: the chart of a rendered run is drawn without an exception and
    shows the written lines: one bar per line, in the same order, labelled
    with the line's condition and as high as its probability. *)
Theorem chart_shows_the_lines (place : string) (d : date)
    (forecast_list : list Raw.forecast) (report : Report) :
  run place d forecast_list = Ok (Rendered report) ->
  probability_chart (risk_counts (conditions report)) (total_slots report)
  = Ok (map condition (assessment report), map percent (assessment report)).
Proof.
  intro H.
  destruct (run_rendered _ _ _ _ H)
    as (sel & _ & _ & _ & _ & _ & _ & Hp & _).
  unfold probability_chart. rewrite (chart_heights_lines _ _ _ Hp). simpl.
  now rewrite map_condition_items, (probabilities_items _ _ _ Hp).
Qed.

Lemma chart_shows_the_lines_witness :
  exists report,
    run "Mumbai" third_of_november [dawn; morning; afternoon]
      = Ok (Rendered report) /\
    probability_chart (risk_counts (conditions report)) (total_slots report)
    = Ok ([VeryHot; Comfortable], [(200 # 3)%Q; (100 # 3)%Q]).
Proof.
  assert (E : exists report,
             run "Mumbai" third_of_november [dawn; morning; afternoon]
               = Ok (Rendered report)) by (eexists; lazy; reflexivity).
  destruct E as (report & E). exists report. split; [exact E |].
  rewrite (chart_shows_the_lines _ _ _ _ E).
  lazy in E. injection E as <-. reflexivity.
Defined.

End Agreement.

(** ** A run with one category *)

Section OneCategory.

Local Open Scope list_scope.

Lemma NoDup_only (c : string) (l : list string) :
  NoDup l -> In c l -> (forall x, In x l -> x = c) -> l = [c].
Proof.
  intros ND Hin Hall. destruct l as [| a l]; [inversion Hin |].
  assert (a = c) by (apply Hall; now left). subst a.
  destruct l as [| b l]; [reflexivity |].
  assert (b = c) by (apply Hall; right; now left). subst b.
  inversion ND as [| ? ? N _]. exfalso. apply N. now left.
Qed.

Lemma round_half_even_value (x y : Q) :
  (x == y)%Q -> round_half_even x = round_half_even y.
Proof.
  intro E. unfold round_half_even.
  rewrite (Qfloor_comp x y E).
  assert (C : (x - inject_Z (Qfloor y) ?= 1 # 2)%Q
              = (y - inject_Z (Qfloor y) ?= 1 # 2)%Q).
  { apply Qcompare_comp; [now rewrite E | reflexivity]. }
  now rewrite C.
Qed.

Lemma one_decimal_value (x y : Q) :
  (x == y)%Q -> one_decimal x = one_decimal y.
Proof.
  intro E. unfold one_decimal.
  rewrite (round_half_even_value (x * 10) (y * 10)); [reflexivity |].
  now rewrite E.
Qed.

(** X15: when all slots of a rendered run carry the same category, the
    assessment is a single line for it, counting every slot, with
    probability 100, shown as 100.0. *)
Theorem one_category_run (place : string) (d : date)
    (forecast_list : list Raw.forecast) (report : Report) (c : string) :
  run place d forecast_list = Ok (Rendered report) ->
  Forall (fun label => label = c) (conditions report) ->
  exists l,
    assessment report = [l] /\
    condition l = c /\
    slots l = total_slots report /\
    (percent l == 100)%Q /\
    (one_decimal (percent l) == 100)%Q.
Proof.
  intros H Hall.
  destruct (run_rendered _ _ _ _ H)
    as (sel & _ & _ & _ & Hc & Ht & Hpos & Hp & _).
  pose proof (probabilities_items _ _ _ Hp) as Hi.
  destruct (probabilities_ok (risk_counts (conditions report)) _ Hpos)
    as (lines & Hp' & _ & Hq).
  rewrite Hp in Hp'. injection Hp' as <-.
  assert (Hlen : List.length (conditions report) = total_slots report).
  { rewrite Hc, Ht. unfold Condition. apply length_map. }
  rewrite Forall_forall in Hall.
  assert (Hin : In c (conditions report)).
  { destruct (conditions report) as [| a rest]; [simpl in Hlen; lia |].
    left. apply Hall. now left. }
  assert (Hk : map condition (assessment report) = [c]).
  { apply NoDup_only.
    - rewrite map_condition_items, Hi. apply value_counts_NoDup.
    - rewrite map_condition_items, Hi. now apply value_counts_In.
    - intros x Hx. rewrite map_condition_items, Hi in Hx.
      apply (proj1 (value_counts_In _ _)) in Hx. now apply Hall. }
  destruct (assessment report) as [| l [| l' rest]] eqn:Ea;
    try discriminate Hk.
  injection Hk as Hk. exists l.
  assert (Hs : slots l = total_slots report).
  { pose proof (value_counts_counted (conditions report)) as S.
    unfold risk_counts in Hi. rewrite <- Hi, Hlen in S. simpl in S.
    unfold counted in S. simpl in S. lia. }
  assert (Hp100 : (percent l == 100)%Q).
  { rewrite Forall_forall in Hq. rewrite (Hq l (or_introl eq_refl)), Hs.
    pose proof (of_count_positive _ Hpos). field. lra. }
  split; [reflexivity |]. split; [exact Hk |]. split; [exact Hs |].
  split; [exact Hp100 |].
  rewrite (one_decimal_value _ 100 Hp100). reflexivity.
Qed.

Lemma one_category_run_witness :
  exists report l,
    run "Mumbai" third_of_november [morning; afternoon]
      = Ok (Rendered report) /\
    assessment report = [l] /\
    condition l = VeryHot /\ slots l = 2 /\
    (one_decimal (percent l) == 100)%Q.
Proof.
  assert (E : exists report,
             run "Mumbai" third_of_november [morning; afternoon]
               = Ok (Rendered report) /\
             conditions report = [VeryHot; VeryHot] /\
             total_slots report = 2).
  { eexists. split; [lazy; reflexivity |]. split; reflexivity. }
  destruct E as (report & E & C & T).
  destruct (one_category_run _ _ _ _ VeryHot E) as (l & A & K & S & _ & R).
  - rewrite C. repeat constructor.
  - exists report, l. rewrite <- T. auto.
Defined.

End OneCategory.

(** ** The script around the run *)

Section Script.

Local Open Scope list_scope.

Lemma offered_place_found (place : string) :
  In place place_options ->
  exists lat lon, lookup place popular_places = Ok (lat, lon).
Proof.
  unfold place_options. simpl.
  intros [<- | [<- | [<- | [<- | [<- | []]]]]]; do 2 eexists; reflexivity.
Qed.

(** X16: for an offered place the script ends in an error box in two
    cases only: the key is absent or empty (the box names the key and no
    request is made), or the key is set and the request failed (the box
    carries the text of the failure).  A response that was received never
    ends in an error box. *)
Theorem script_error_box (key : option string) (place : string) (d : date)
    (requests_get : Q -> Q -> option string -> response) (message : string) :
  In place place_options ->
  script key place d requests_get = Ok (ErrorBox message) <->
  (truthy key = false /\ message = api_key_error) \/
  (truthy key = true /\
   exists lat lon e,
     lookup place popular_places = Ok (lat, lon) /\
     requests_get lat lon key = Failed e /\
     message = fetch_error e).
Proof.
  intro Hp. destruct (offered_place_found place Hp) as (lat & lon & Hl).
  unfold script. destruct (truthy key) eqn:Ek; cbn [negb].
  - rewrite Hl. cbn [bind].
    destruct (requests_get lat lon key) as [body | e] eqn:Er.
    + split.
      * destruct (list_ body) as [fl |]; simpl; [| discriminate].
        destruct (run place d fl); simpl; discriminate.
      * intros [[E _] | (_ & lat' & lon' & e & El & Ef & _)];
          [discriminate |].
        injection El as <- <-. congruence.
    + split.
      * intros [= <-]. right. split; [reflexivity |].
        exists lat, lon, e. auto.
      * intros [[E _] | (_ & lat' & lon' & e' & El & Ef & ->)];
          [discriminate |].
        injection El as <- <-. congruence.
  - split.
    + intros [= <-]. left. auto.
    + intros [[_ ->] | [E _]]; [reflexivity | discriminate].
Qed.

Lemma script_error_box_witness :
  script (Some "") "Chennai" third_of_november (always [morning])
  = Ok (ErrorBox api_key_error) /\
  script (Some "k") "Chennai" third_of_november
         (fun _ _ _ => Failed "timed out")
  = Ok (ErrorBox (fetch_error "timed out")).
Proof.
  split.
  - apply (script_error_box (Some "") "Chennai" third_of_november
             (always [morning]) api_key_error).
    + do 3 right. left. reflexivity.
    + left. split; reflexivity.
  - apply (script_error_box (Some "k") "Chennai" third_of_november
             (fun _ _ _ => Failed "timed out") (fetch_error "timed out")).
    + do 3 right. left. reflexivity.
    + right. split; [reflexivity |].
      do 3 eexists. split; [reflexivity |]. split; reflexivity.
Defined.

End Script.

(** ** The frame and its labels *)

Section Frame.

Local Open Scope list_scope.

Lemma df_row_fields (f : Raw.forecast) (row : Row) :
  df_row f = Ok row ->
  Raw.dt_txt f = Some (time row) /\ rain row = precipitation f.
Proof.
  unfold df_row, precipitation. intro H.
  destruct (Raw.dt_txt f) as [t |]; simpl in H; [| discriminate].
  destruct (Raw.main_ f) as [m |]; simpl in H; [| discriminate].
  destruct (Raw.temp m); simpl in H; [| discriminate].
  destruct (Raw.humidity m); simpl in H; [| discriminate].
  destruct (Raw.wind_ f) as [w |]; simpl in H; [| discriminate].
  destruct (Raw.speed w); simpl in H; [| discriminate].
  destruct (Raw.weather_ f) as [[| w0 ws] |]; simpl in H; try discriminate.
  destruct (Raw.description w0); simpl in H; [| discriminate].
  injection H as <-. simpl. split; [reflexivity |].
  destruct (Raw.rain_ f) as [r |]; simpl; [| reflexivity].
  destruct (Raw.three_hours r); reflexivity.
Qed.

Lemma df_times (sel : list Raw.forecast) (rows : list Row) :
  df sel = Ok rows ->
  map Raw.dt_txt sel = map (fun row => Some (time row)) rows.
Proof.
  revert rows. induction sel as [| f sel IH]; simpl; intros rows H.
  - now injection H as <-.
  - destruct (df_row f) as [row |] eqn:E; simpl in H; [| discriminate].
    destruct (df sel) as [rest |]; simpl in H; [| discriminate].
    injection H as <-. simpl. apply df_row_fields in E.
    destruct E as [-> _]. f_equal. now apply IH.
Qed.

(** X17: a record without a rain entry, or whose rain entry has no "3h"
    value, is never labelled Very Wet: its precipitation is read as 0. *)
Theorem no_rain_entry_never_wet (f : Raw.forecast) (row : Row) :
  df_row f = Ok row ->
  Raw.rain_ f = None \/
  (exists r, Raw.rain_ f = Some r /\ Raw.three_hours r = None) ->
  rain row = 0%Q /\ classify row <> VeryWet.
Proof.
  intros H Hr. apply df_row_fields in H. destruct H as [_ E].
  assert (Z : rain row = 0%Q).
  { rewrite E. unfold precipitation.
    destruct Hr as [-> | (r & -> & ->)]; reflexivity. }
  split; [exact Z |].
  unfold classify, weather_risk. rewrite Z.
  change (num_gt 0 2) with false.
  destruct (num_ge (temperature row) 35); [discriminate |].
  destruct (num_le (temperature row) 10); [discriminate |].
  destruct (num_ge (wind_speed row) 10); [discriminate |].
  destruct (num_ge (humidity row) 80
            && (num_le 20 (temperature row) && num_le (temperature row) 32));
    discriminate.
Qed.

Lemma no_rain_entry_never_wet_witness :
  exists row,
    df_row dawn = Ok row /\ rain row = 0%Q /\ classify row <> VeryWet.
Proof.
  eexists. split; [reflexivity |].
  apply (no_rain_entry_never_wet dawn); [reflexivity | left; reflexivity].
Defined.

(** X18: a rendered run has one row, one label and one counted slot for
    each record of the target date, in the order of the list: the times of
    the frame are the timestamps of those records and [total_slots] is
    their number. *)
Theorem rendered_slots (place : string) (d : date)
    (forecast_list : list Raw.forecast) (report : Report) :
  run place d forecast_list = Ok (Rendered report) ->
  map (fun row => Some (time row)) (frame report)
  = map Raw.dt_txt (filter (on_target_date d) forecast_list) /\
  total_slots report
  = List.length (filter (on_target_date d) forecast_list) /\
  List.length (conditions report) = total_slots report /\
  conditions report = map classify (frame report).
Proof.
  intro H.
  destruct (run_rendered _ _ _ _ H)
    as (sel & Hs & _ & Hd & Hc & Ht & _).
  pose proof (selected_forecast_timestamps _ _ _ Hs) as Hts.
  rewrite (selected_forecast_filter d forecast_list Hts) in Hs.
  injection Hs as <-.
  split; [symmetry; now apply df_times |].
  split; [rewrite Ht; now apply df_length |].
  split; [| exact Hc].
  rewrite Hc, Ht. apply length_map.
Qed.

Lemma rendered_slots_witness :
  exists report,
    run "Delhi" third_of_november [dawn; bare_next_day; morning]
      = Ok (Rendered report) /\
    total_slots report = 2 /\
    map (fun row => Some (time row)) (frame report)
    = [Some "2026-11-03 06:00:00"; Some "2026-11-03 09:00:00"]%string.
Proof.
  assert (E : exists report,
             run "Delhi" third_of_november [dawn; bare_next_day; morning]
               = Ok (Rendered report)) by (eexists; lazy; reflexivity).
  destruct E as (report & E). exists report. split; [exact E |].
  destruct (rendered_slots _ _ _ _ E) as (T & L & _).
  rewrite T, L. split; reflexivity.
Defined.

End Frame.
